(** * Monobank MCP server (src/index.ts): a shallow embedding and its properties

    The server exposes two tools, [get_client_info] and [get_statement], over
    the Monobank personal API.  This development models

    - the JavaScript values and built-ins the handlers use (numbers as IEEE
      binary64 floats, [Number::toString], [Math.floor], [Date] and
      [Date.prototype.toISOString], [JSON.stringify]);
    - the part of zod that [GetStatementArgsSchema] relies on;
    - the outside world (environment variable, clock, upstream HTTP server)
      as an explicit state threaded through an exception monad that also
      logs every request handed to [fetch];
    - [getClientInfo], [getStatement] and the [CallToolRequest] handler,
      following the source statement by statement.  *)

From Stdlib Require Import ZArith Floats String Ascii List Bool Lia Uint63.
Import ListNotations.

Local Open Scope string_scope.
Local Open Scope Z_scope.

(** ** JavaScript numbers

    A JS Number is an IEEE-754 binary64 value: Rocq's primitive [float].
    [Prim2SF] exposes sign, mantissa and exponent, which is how the exact
    mathematical value of a finite Number is read below. *)
Module Number.

(** Falsy numbers are [+0], [-0] and [NaN] (ToBoolean). *)
Definition truthy (x : float) : bool :=
  negb (PrimFloat.is_zero x || PrimFloat.is_nan x).

(** The integer part of the magnitude [m * 2^e]. *)
Definition magnitude_trunc (m : positive) (e : Z) : Z :=
  if 0 <=? e then Z.shiftl (Zpos m) e else Z.shiftr (Zpos m) (- e).

(** Is [m * 2^e] an integer? *)
Definition magnitude_integral (m : positive) (e : Z) : bool :=
  if 0 <=? e then true
  else Z.shiftl (Z.shiftr (Zpos m) (- e)) (- e) =? Zpos m.

(** [Some z] when the Number is exactly the integer [z]. *)
Definition to_integer (x : float) : option Z :=
  match Prim2SF x with
  | S754_zero _ => Some 0
  | S754_finite s m e =>
      if magnitude_integral m e
      then let q := magnitude_trunc m e in Some (if s then - q else q)
      else None
  | S754_infinity _ | S754_nan => None
  end.

(** The Number of an integer; exact for magnitudes below [2^53]. *)
Definition of_Z (z : Z) : float :=
  match z with
  | Z0 => PrimFloat.zero
  | Zpos _ => PrimFloat.of_uint63 (Uint63.of_Z z)
  | Zneg p => PrimFloat.opp (PrimFloat.of_uint63 (Uint63.of_Z (Zpos p)))
  end.

(** [Math.floor]. Integral values, infinities and NaN are returned as they
    are; otherwise the magnitude is below [2^53] and its floor is exact. *)
Definition floor (x : float) : float :=
  match Prim2SF x with
  | S754_finite s m e =>
      if magnitude_integral m e then x
      else
        let q := magnitude_trunc m e in
        if s then of_Z (- (q + 1)) else of_Z q
  | _ => x
  end.

Definition MAX_SAFE_INTEGER : Z := 2 ^ 53 - 1.

(** Decimal digits of a natural number, most significant first. *)
Definition digit_char (d : Z) : ascii := ascii_of_N (48 + Z.to_N d).

Fixpoint digits_fuel (fuel : nat) (n : Z) (acc : string) : string :=
  match fuel with
  | O => acc
  | S fuel' =>
      let acc' := String (digit_char (n mod 10)) acc in
      if n <? 10 then acc' else digits_fuel fuel' (n / 10) acc'
  end.

Definition decimal (n : Z) : string :=
  digits_fuel (S (Z.to_nat (Z.log2 n))) n EmptyString.

Section ToString.
(** [Number::toString] on Numbers that are not safe integers prints the
    shortest decimal that reads back as the same Number; that algorithm
    is left to the engine. *)
Variable toString_fractional : float -> string.

(** [Number::toString(x)] in radix 10. *)
Definition toString (x : float) : string :=
  if PrimFloat.is_nan x then "NaN"
  else match to_integer x with
       | Some z =>
           if Z.abs z <=? MAX_SAFE_INTEGER
           then if z <? 0 then "-" ++ decimal (- z) else decimal z
           else toString_fractional x
       | None =>
           if PrimFloat.is_infinity x
           then if PrimFloat.get_sign x then "-Infinity" else "Infinity"
           else toString_fractional x
       end.
End ToString.

End Number.

(** ** JavaScript values

    Objects are association lists in property-insertion order (the order
    [JSON.stringify] walks); property lookup takes the first binding, and a
    missing property reads as [undefined]. Strings are byte strings (the
    UTF-8 encoding of the JS string). *)
#[warnings="-register-all"]
Inductive JsValue : Type :=
| JsUndefined
| JsNull
| JsBoolean (b : bool)
| JsNumber (x : float)
| JsString (s : string)
| JsArray (items : list JsValue)
| JsObject (props : list (string * JsValue)).

Module Obj.
Definition t : Type := list (string * JsValue).

Fixpoint lookup (k : string) (o : t) : option JsValue :=
  match o with
  | [] => None
  | (k', v) :: o' => if String.eqb k k' then Some v else lookup k o'
  end.

(** [o[k]] *)
Definition get (k : string) (o : t) : JsValue :=
  match lookup k o with Some v => v | None => JsUndefined end.

Definition keys (o : t) : list string := map fst o.

(** An optional property [k?: string] of a typed object, as a value. *)
Definition optional_string (s : option string) : JsValue :=
  match s with Some s => JsString s | None => JsUndefined end.
End Obj.

(** ** [JSON.stringify(value, null, 2)] *)
Module JSON.
Definition nl : string := String (ascii_of_nat 10) EmptyString.
Definition dquote : string := String (ascii_of_nat 34) EmptyString.
Definition gap : string := "  ".

Definition hex_digit (n : nat) : ascii :=
  ascii_of_nat (if Nat.ltb n 10 then 48 + n else 87 + n).

(** QuoteJSONString, one code unit at a time. Bytes from 0x80 up belong to
    the UTF-8 encoding of a non-ASCII character and are kept. *)
Definition quote_char (c : ascii) : string :=
  let n := nat_of_ascii c in
  if Nat.eqb n 8 then "\b"
  else if Nat.eqb n 9 then "\t"
  else if Nat.eqb n 10 then "\n"
  else if Nat.eqb n 12 then "\f"
  else if Nat.eqb n 13 then "\r"
  else if Nat.eqb n 34 then "\" ++ dquote
  else if Nat.eqb n 92 then "\\"
  else if Nat.ltb n 32
       then "\u00" ++ String (hex_digit (n / 16)) (String (hex_digit (n mod 16)) EmptyString)
       else String c EmptyString.

Fixpoint quote_body (s : string) : string :=
  match s with
  | EmptyString => EmptyString
  | String c s' => quote_char c ++ quote_body s'
  end.

Definition quote (s : string) : string := dquote ++ quote_body s ++ dquote.

Definition join (sep : string) (l : list string) : string :=
  match l with
  | [] => EmptyString
  | x :: l' => fold_left (fun acc y => acc ++ sep ++ y) l' x
  end.

(** The text of a non-empty list of serialized members between [opening]
    and [closing], one per line at indentation [stepback ++ gap]. *)
Definition wrap (opening closing stepback : string) (partial : list string) : string :=
  match partial with
  | [] => opening ++ closing
  | _ =>
      let indent := stepback ++ gap in
      opening ++ nl ++ indent ++ join ("," ++ nl ++ indent) partial
              ++ nl ++ stepback ++ closing
  end.

Section Serialize.
Variable toString_fractional : float -> string.

(** SerializeJSONProperty at indentation [stepback]; [None] is the
    [undefined] the algorithm returns for a value it skips. *)
Fixpoint serialize (stepback : string) (v : JsValue) : option string :=
  match v with
  | JsUndefined => None
  | JsNull => Some "null"
  | JsBoolean b => Some (if b then "true" else "false")
  | JsNumber x =>
      Some (if PrimFloat.is_finite x
            then Number.toString toString_fractional x
            else "null")
  | JsString s => Some (quote s)
  | JsArray items =>
      let element v :=
        match serialize (stepback ++ gap) v with
        | Some s => s
        | None => "null"
        end in
      Some (wrap "[" "]" stepback (map element items))
  | JsObject props =>
      let members :=
        (fix members (ps : list (string * JsValue)) : list string :=
           match ps with
           | [] => []
           | (k, v) :: ps' =>
               match serialize (stepback ++ gap) v with
               | Some s => (quote k ++ ": " ++ s) :: members ps'
               | None => members ps'
               end
           end) props in
      Some (wrap "{" "}" stepback members)
  end.

Definition stringify (v : JsValue) : option string := serialize EmptyString v.
End Serialize.
End JSON.

(** ** zod

    The part of zod (3.x) behind [z.object({ ... })], [z.string()] and
    [z.number()]: a schema's [_parse] either yields the parsed value or
    reports issues, each an [invalid_type] issue object with [code],
    [expected], [received], [path] and [message]. *)
Module Zod.
(** [ZodParsedType], as far as JSON-shaped input can reach it. *)
Inductive ParsedType : Type :=
| TString | TNan | TNumber | TBoolean | TUndefined | TNull | TArray | TObject.

Definition ParsedType_name (t : ParsedType) : string :=
  match t with
  | TString => "string" | TNan => "nan" | TNumber => "number"
  | TBoolean => "boolean" | TUndefined => "undefined" | TNull => "null"
  | TArray => "array" | TObject => "object"
  end.

Definition ParsedType_eqb (a b : ParsedType) : bool :=
  String.eqb (ParsedType_name a) (ParsedType_name b).

(** [getParsedType] *)
Definition getParsedType (v : JsValue) : ParsedType :=
  match v with
  | JsUndefined => TUndefined
  | JsNull => TNull
  | JsBoolean _ => TBoolean
  | JsNumber x => if PrimFloat.is_nan x then TNan else TNumber
  | JsString _ => TString
  | JsArray _ => TArray
  | JsObject _ => TObject
  end.

Record Issue : Type := mkIssue {
  code : string;
  expected : ParsedType;
  received : ParsedType;
  path : list string;
  message : string
}.

(** The default error map on an [invalid_type] issue. *)
Definition invalid_type (path : list string) (expected received : ParsedType) : Issue :=
  {| code := "invalid_type";
     expected := expected;
     received := received;
     path := path;
     message :=
       match received with
       | TUndefined => "Required"
       | _ => "Expected " ++ ParsedType_name expected
               ++ ", received " ++ ParsedType_name received
       end |}.

Definition Issue_toJs (i : Issue) : JsValue :=
  JsObject [("code", JsString (code i));
            ("expected", JsString (ParsedType_name (expected i)));
            ("received", JsString (ParsedType_name (received i)));
            ("path", JsArray (map JsString (path i)));
            ("message", JsString (message i))].

(** The outcome of a schema's [_parse]: the issues found, or the parsed
    value. *)
Definition Parsed (A : Type) : Type := (list Issue + A)%type.

(** [z.string()._parse] on the input found at [path]. *)
Definition string_ (path : list string) (input : JsValue) : Parsed string :=
  match input with
  | JsString s => inr s
  | _ => inl [invalid_type path TString (getParsedType input)]
  end.

(** [z.number()._parse]: a Number other than NaN. *)
Definition number (path : list string) (input : JsValue) : Parsed float :=
  match input with
  | JsNumber x =>
      if PrimFloat.is_nan x then inl [invalid_type path TNumber TNan]
      else inr x
  | _ => inl [invalid_type path TNumber (getParsedType input)]
  end.

(** One key of an object shape: the validator runs on [data[key]] at path
    [[key]]. *)
Definition field {A : Type} (validator : list string -> JsValue -> Parsed A)
    (key : string) (data : Obj.t) : Parsed A :=
  validator [key] (Obj.get key data).

(** Merging the keys of a shape, in shape order: every key is validated
    and the issues of all of them are collected. *)
Definition merge {A B : Type} (f : Parsed (A -> B)) (x : Parsed A) : Parsed B :=
  match f, x with
  | inr f, inr x => inr (f x)
  | inl i, inr _ => inl i
  | inr _, inl j => inl j
  | inl i, inl j => inl (i ++ j)%list
  end.

(** [z.object(shape)._parse] with the default [strip] policy: the input must
    be an object; only the keys of the shape are read, so unknown keys do
    not reach the result. *)
Definition object {A : Type} (shape : Obj.t -> Parsed A) (input : JsValue) : Parsed A :=
  match input with
  | JsObject data => shape data
  | _ => inl [invalid_type [] TObject (getParsedType input)]
  end.
End Zod.

(** ** Exceptions

    What a [throw] carries. *)
Inductive Thrown : Type :=
| JsError (name : string) (message : string)
    (** an [Error], [TypeError], [RangeError], [SyntaxError], ... object *)
| ZodError (issues : list Zod.Issue)
    (** what [schema.parse] throws; also an instance of [Error] *)
| NonError (text : string).
    (** any other thrown value, kept as what [String(value)] gives *)

(** A computation that returns or throws. *)
Definition Completion (A : Type) : Type := (Thrown + A)%type.

(** ** [Date]

    Time values are integral milliseconds since the epoch; the functions are
    those of ECMA-262, "Time Values and Time Range" through "Date Time String
    Format", under their names there. [None] is the NaN time value of an
    invalid Date. *)
Module Date.
Definition msPerDay : Z := 86400000.
Definition msPerHour : Z := 3600000.
Definition msPerMinute : Z := 60000.
Definition msPerSecond : Z := 1000.

Definition Day (t : Z) : Z := t / msPerDay.
Definition TimeWithinDay (t : Z) : Z := t mod msPerDay.

Definition DaysInYear (y : Z) : Z :=
  if y mod 400 =? 0 then 366
  else if y mod 100 =? 0 then 365
  else if y mod 4 =? 0 then 366
  else 365.

Definition DayFromYear (y : Z) : Z :=
  365 * (y - 1970) + (y - 1969) / 4 - (y - 1901) / 100 + (y - 1601) / 400.

Definition TimeFromYear (y : Z) : Z := msPerDay * DayFromYear y.

(** The largest [y] with [TimeFromYear y <= t] ([YearFromTime_spec]): the
    mean Gregorian year has 146097/400 days, so the year is the estimate
    or one of its neighbours. *)
Definition YearFromTime (t : Z) : Z :=
  let d := Day t in
  let y := 1970 + (400 * d) / 146097 in
  if DayFromYear (y + 1) <=? d then y + 1
  else if DayFromYear y <=? d then y
  else y - 1.

Definition InLeapYear (t : Z) : Z :=
  if DaysInYear (YearFromTime t) =? 366 then 1 else 0.

Definition DayWithinYear (t : Z) : Z := Day t - DayFromYear (YearFromTime t).

Definition MonthFromTime (t : Z) : Z :=
  let d := DayWithinYear t in
  let l := InLeapYear t in
  if d <? 31 then 0
  else if d <? 59 + l then 1
  else if d <? 90 + l then 2
  else if d <? 120 + l then 3
  else if d <? 151 + l then 4
  else if d <? 181 + l then 5
  else if d <? 212 + l then 6
  else if d <? 243 + l then 7
  else if d <? 273 + l then 8
  else if d <? 304 + l then 9
  else if d <? 334 + l then 10
  else 11.

Definition DateFromTime (t : Z) : Z :=
  let d := DayWithinYear t in
  let l := InLeapYear t in
  match MonthFromTime t with
  | 0 => d + 1
  | 1 => d - 30
  | 2 => d - 58 - l
  | 3 => d - 89 - l
  | 4 => d - 119 - l
  | 5 => d - 150 - l
  | 6 => d - 180 - l
  | 7 => d - 211 - l
  | 8 => d - 242 - l
  | 9 => d - 272 - l
  | 10 => d - 303 - l
  | _ => d - 333 - l
  end.

Definition HourFromTime (t : Z) : Z := (t / msPerHour) mod 24.
Definition MinFromTime (t : Z) : Z := (t / msPerMinute) mod 60.
Definition SecFromTime (t : Z) : Z := (t / msPerSecond) mod 60.
Definition msFromTime (t : Z) : Z := t mod msPerSecond.

Definition maxTime : Z := 8640000000000000.

(** Is [m * 2^e > k]? Exact, on the mathematical value. *)
Definition magnitude_gt (m : positive) (e : Z) (k : Z) : bool :=
  if 0 <=? e then k <? Z.shiftl (Zpos m) e
  else Z.shiftl k (- e) <? Zpos m.

(** TimeClip: NaN unless the Number is finite and within 8.64e15 ms of the
    epoch; then its integer part. *)
Definition TimeClip (time : float) : option Z :=
  match Prim2SF time with
  | S754_zero _ => Some 0
  | S754_finite s m e =>
      if magnitude_gt m e maxTime then None
      else let q := Number.magnitude_trunc m e in Some (if s then - q else q)
  | S754_infinity _ | S754_nan => None
  end.

(** [new Date(value)] for a Number [value]: the Date's time value. *)
Definition new (value : float) : option Z := TimeClip value.

(** [k] decimal digits of [n], zero-padded. *)
Fixpoint pad_onto (k : nat) (n : Z) (rest : string) : string :=
  match k with
  | O => rest
  | S k' => pad_onto k' (n / 10) (String (Number.digit_char (n mod 10)) rest)
  end.

Definition format_year (y : Z) (rest : string) : string :=
  if (0 <=? y) && (y <=? 9999) then pad_onto 4 y rest
  else String (if y <? 0 then "-"%char else "+"%char) (pad_onto 6 (Z.abs y) rest).

(** The Date Time String Format of a time value, in UTC. *)
Definition format (tv : Z) : string :=
  format_year (YearFromTime tv)
    (String "-" (pad_onto 2 (MonthFromTime tv + 1)
    (String "-" (pad_onto 2 (DateFromTime tv)
    (String "T" (pad_onto 2 (HourFromTime tv)
    (String ":" (pad_onto 2 (MinFromTime tv)
    (String ":" (pad_onto 2 (SecFromTime tv)
    (String "." (pad_onto 3 (msFromTime tv)
    (String "Z" EmptyString))))))))))))).

(** [Date.prototype.toISOString]: a RangeError on an invalid Date. *)
Definition toISOString (tv : option Z) : Completion string :=
  match tv with
  | None => inl (JsError "RangeError" "Invalid time value")
  | Some t => inr (format t)
  end.
End Date.

(** ** Reading the Date Time String Format

    The instant a string [YYYY-MM-DDTHH:mm:ss.sssZ] (or, with an expanded
    year, [+YYYYYY-...] / [-YYYYYY-...]) denotes: [Date.parse] on that
    format, through MakeDay, MakeTime and MakeDate. Anything else, or a
    field out of its range, is rejected. *)
Module DateString.
Definition digit_value (c : ascii) : option Z :=
  let n := Z.of_N (N_of_ascii c) in
  if (48 <=? n) && (n <=? 57) then Some (n - 48) else None.

Fixpoint read_digits (k : nat) (acc : Z) (s : string) : option (Z * string) :=
  match k with
  | O => Some (acc, s)
  | S k' =>
      match s with
      | String c s' =>
          match digit_value c with
          | Some d => read_digits k' (10 * acc + d) s'
          | None => None
          end
      | EmptyString => None
      end
  end.

Definition expect (c : ascii) (s : string) : option string :=
  match s with
  | String c' s' => if Ascii.eqb c c' then Some s' else None
  | EmptyString => None
  end.

Definition read_year (s : string) : option (Z * string) :=
  match s with
  | String c s' =>
      if Ascii.eqb c "+" then read_digits 6 0 s'
      else if Ascii.eqb c "-" then
        match read_digits 6 0 s' with
        | Some (y, rest) => if y =? 0 then None else Some (- y, rest)
        | None => None
        end
      else read_digits 4 0 s
  | EmptyString => None
  end.

(** Days of the year before month [m] (0 = January). *)
Definition DaysBeforeMonth (leap : Z) (m : Z) : Z :=
  match m with
  | 0 => 0
  | 1 => 31
  | 2 => 59 + leap
  | 3 => 90 + leap
  | 4 => 120 + leap
  | 5 => 151 + leap
  | 6 => 181 + leap
  | 7 => 212 + leap
  | 8 => 243 + leap
  | 9 => 273 + leap
  | 10 => 304 + leap
  | _ => 334 + leap
  end.

Definition leap (y : Z) : Z := if Date.DaysInYear y =? 366 then 1 else 0.

Definition DaysInMonth (y m : Z) : Z :=
  if m =? 11 then 31
  else DaysBeforeMonth (leap y) (m + 1) - DaysBeforeMonth (leap y) m.

Definition MakeDay (year month date : Z) : Z :=
  Date.DayFromYear year + DaysBeforeMonth (leap year) month + date - 1.

Definition MakeTime (hour min sec ms : Z) : Z :=
  hour * Date.msPerHour + min * Date.msPerMinute + sec * Date.msPerSecond + ms.

Definition MakeDate (day time : Z) : Z := day * Date.msPerDay + time.

Notation "' p <- c ;; k" :=
  (match c with Some p => k | None => None end)
    (at level 61, p pattern, c at next level, right associativity).

Definition parse (s : string) : option Z :=
  ' (year, s) <- read_year s ;;
  ' s <- expect "-" s ;;
  ' (month, s) <- read_digits 2 0 s ;;
  ' s <- expect "-" s ;;
  ' (date, s) <- read_digits 2 0 s ;;
  ' s <- expect "T" s ;;
  ' (hour, s) <- read_digits 2 0 s ;;
  ' s <- expect ":" s ;;
  ' (min, s) <- read_digits 2 0 s ;;
  ' s <- expect ":" s ;;
  ' (sec, s) <- read_digits 2 0 s ;;
  ' s <- expect "." s ;;
  ' (ms, s) <- read_digits 3 0 s ;;
  ' s <- expect "Z" s ;;
  match s with
  | EmptyString =>
      if (1 <=? month) && (month <=? 12)
         && (1 <=? date) && (date <=? DaysInMonth year (month - 1))
         && (hour <=? 23) && (min <=? 59) && (sec <=? 59)
      then Some (MakeDate (MakeDay year (month - 1) date)
                          (MakeTime hour min sec ms))
      else None
  | String _ _ => None
  end.
End DateString.

(** ** The data model of index.ts *)

(** [interface StatementItem]: one transaction as the upstream sends it. *)
Module StatementItem.
Record t : Type := mk {
  id : string;
  time : float;
  description : string;
  mcc : float;
  originalMcc : float;
  hold : bool;
  amount : float;
  operationAmount : float;
  currencyCode : float;
  commissionRate : float;
  cashbackAmount : float;
  balance : float;
  comment : option string;
  receiptId : option string;
  invoiceId : option string;
  counterEdrpou : option string;
  counterIban : option string;
  counterName : option string
}.
End StatementItem.

(** The object [GetStatementArgsSchema.parse] returns. *)
Record GetStatementArgs : Type := mkGetStatementArgs {
  account_id : string;
  from_timestamp : float;
  to_timestamp : float
}.

(** [const GetStatementArgsSchema = z.object({ account_id: z.string(),
    from_timestamp: z.number(), to_timestamp: z.number() })] *)
Definition GetStatementArgsSchema : JsValue -> Zod.Parsed GetStatementArgs :=
  Zod.object (fun data =>
    Zod.merge (Zod.merge (Zod.merge (inr mkGetStatementArgs)
      (Zod.field Zod.string_ "account_id" data))
      (Zod.field Zod.number "from_timestamp" data))
      (Zod.field Zod.number "to_timestamp" data)).

(** What a tool call returns: [{ content: [{ type, text }] }]. *)
Record ContentItem : Type := mkContentItem {
  type : string;
  text : option string
}.

Record ToolResult : Type := mkToolResult {
  content : list ContentItem
}.

(** ** The tool catalog

    What the handler of [ListToolsRequestSchema] advertises: each tool's
    name, description and [inputSchema] (property types and descriptions,
    and the required properties). *)
Record ToolProperty : Type := mkToolProperty {
  property_type : string;
  property_description : string
}.

Record Tool : Type := mkTool {
  tool_name : string;
  tool_description : string;
  tool_properties : list (string * ToolProperty);
  tool_required : list string
}.

Definition tools : list Tool :=
  [ {| tool_name := "get_client_info";
       tool_description := "Get client information from Monobank API. This tool retrieves information about the client, their accounts, and jars. It requires a Monobank API token with the necessary permissions.";
       tool_properties := [];
       tool_required := [] |};
    {| tool_name := "get_statement";
       tool_description := "Get account statement for a given period. Rate limit: 1 request per 60 seconds. Max period: 31 days + 1 hour. Rules: 1. Fetch from default account (account_id = '0') unless another account is specified. 2. Amounts are converted from the smallest currency unit (e.g., kopiyka, cent) to the main unit and returned as decimals. 3. Transaction timestamps ('time') are converted from Unix timestamps to ISO 8601 datetime strings (UTC). 4. Fields 'id', 'invoiceId', 'counterEdrpou', and 'counterIban' are omitted from the returned results.";
       tool_properties :=
         [("account_id",
           {| property_type := "string";
              property_description :=
                "Account identifier from the list of accounts, or '0' for default" |});
          ("from_timestamp",
           {| property_type := "number";
              property_description :=
                "Start of the statement period (Unix timestamp)" |});
          ("to_timestamp",
           {| property_type := "number";
              property_description :=
                "End of the statement period (Unix timestamp)" |})];
       tool_required := ["account_id"; "from_timestamp"; "to_timestamp"] |} ].

(** ** The outside world *)

Record Request : Type := mkRequest {
  url : string;
  headers : list (string * string)
}.

(** A [Response] whose body, read as JSON, is taken at type [A]: the casts
    [as ClientInfo] and [as StatementItem[]] are not checked at run time, and
    the upstream is taken at its contract. The client-info body is only ever
    handed to [JSON.stringify], so [interface ClientInfo] (with [Account] and
    [Jar]) stays a [JsValue]. Reading the body can itself fail. *)
Record Response (A : Type) : Type := mkResponse {
  ok : bool;
  status : float;
  body_text : Completion string;
  body_json : Completion A
}.
Arguments mkResponse {A}.
Arguments ok {A}.
Arguments status {A}.
Arguments body_text {A}.
Arguments body_json {A}.

(** The environment of one tool call: [process.env.MONOBANK_API_TOKEN], the
    clock behind [Date.now()], how the upstream answers each endpoint (a
    rejected [fetch] is a transport failure), and the requests made so far. *)
Record World : Type := mkWorld {
  MONOBANK_API_TOKEN : option string;
  clock : float;
  client_info_endpoint : Request -> Completion (Response JsValue);
  statement_endpoint : Request -> Completion (Response (list StatementItem.t));
  requests : list Request
}.

(** ** Effects: state passing with exceptions *)
Definition M (A : Type) : Type := World -> Completion A * World.

Definition ret {A : Type} (a : A) : M A := fun w => (inr a, w).

Definition throw {A : Type} (e : Thrown) : M A := fun w => (inl e, w).

Definition bind {A B : Type} (m : M A) (k : A -> M B) : M B :=
  fun w =>
    match m w with
    | (inr a, w') => k a w'
    | (inl e, w') => (inl e, w')
    end.

(** [try { body } catch (error) { handler }] *)
Definition try_catch {A : Type} (body : M A) (handler : Thrown -> M A) : M A :=
  fun w =>
    match body w with
    | (inr a, w') => (inr a, w')
    | (inl e, w') => handler e w'
    end.

(** [await] of a promise that is already settled. *)
Definition settle {A : Type} (c : Completion A) : M A := fun w => (c, w).

Declare Scope M_scope.
Delimit Scope M_scope with M.
Notation "x <- m ;; k" := (bind m (fun x => k))
  (at level 61, m at next level, right associativity) : M_scope.
Notation "m ;;; k" := (bind m (fun _ => k))
  (at level 61, right associativity) : M_scope.

Definition Date_now : M float := fun w => (inr (clock w), w).

Definition getenv_MONOBANK_API_TOKEN : M (option string) :=
  fun w => (inr (MONOBANK_API_TOKEN w), w).

(** The world after one more outbound request. *)
Definition record_request (request : Request) (w : World) : World :=
  {| MONOBANK_API_TOKEN := MONOBANK_API_TOKEN w;
     clock := clock w;
     client_info_endpoint := client_info_endpoint w;
     statement_endpoint := statement_endpoint w;
     requests := (requests w ++ [request])%list |}.

(** [fetch(url, { headers })] against one endpoint: the request is recorded,
    then the upstream's answer (or the transport failure) comes back. *)
Definition fetch {A : Type} (endpoint : World -> Request -> Completion (Response A))
    (request : Request) : M (Response A) :=
  fun w => (endpoint w request, record_request request w).

(** [token || fallback] on [string | undefined]: the empty string is falsy. *)
Definition or_string (token : option string) (fallback : string) : string :=
  match token with
  | Some (String c s) => String c s
  | Some EmptyString | None => fallback
  end.

(** [array.map(f)] with a callback that may throw: left to right, stopping at
    the first exception. *)
Fixpoint Array_map {A B : Type} (f : A -> Completion B) (l : list A) : Completion (list B) :=
  match l with
  | [] => inr []
  | a :: l' =>
      match f a with
      | inl e => inl e
      | inr b =>
          match Array_map f l' with
          | inl e => inl e
          | inr bs => inr (b :: bs)
          end
      end
  end.

(** ** Sample data

    A stubbed upstream and the calls the examples below run against it. *)

Definition sample_item : StatementItem.t :=
  {| StatementItem.id := "ZuHWzqkKGVo=";
     StatementItem.time := 1700000000;
     StatementItem.description := "Coffee";
     StatementItem.mcc := 5814;
     StatementItem.originalMcc := 5814;
     StatementItem.hold := false;
     StatementItem.amount := 15000;
     StatementItem.operationAmount := 15000;
     StatementItem.currencyCode := 980;
     StatementItem.commissionRate := 0;
     StatementItem.cashbackAmount := 300;
     StatementItem.balance := 1000000;
     StatementItem.comment := Some "thanks";
     StatementItem.receiptId := None;
     StatementItem.invoiceId := Some "inv-1";
     StatementItem.counterEdrpou := None;
     StatementItem.counterIban := Some "UA00";
     StatementItem.counterName := None |}.

Definition sample_transport_failure : Thrown := JsError "TypeError" "fetch failed".

(** An upstream that serves one statement item and no client info. *)
Definition sample_world : World :=
  {| MONOBANK_API_TOKEN := Some "token";
     clock := 1700003600123;
     client_info_endpoint := fun _ => inl sample_transport_failure;
     statement_endpoint := fun _ =>
       inr (mkResponse true 200 (inr "[...]") (inr [sample_item]));
     requests := [] |}.

(** An upstream that answers 401 with the body [invalid token]. *)
Definition unauthorized {A : Type} : Completion (Response A) :=
  inr (mkResponse false 401 (inr "invalid token")
         (inl (JsError "SyntaxError" "Unexpected token i in JSON at position 0"))).

Definition sample_world_401 : World :=
  {| MONOBANK_API_TOKEN := None;
     clock := 1700003600123;
     client_info_endpoint := fun _ => unauthorized;
     statement_endpoint := fun _ => unauthorized;
     requests := [] |}.

Definition sample_args : JsValue :=
  JsObject [("account_id", JsString "0");
            ("from_timestamp", JsNumber 1700000000);
            ("to_timestamp", JsNumber 1700003600)].

(** What [sample_item] is expected to become. *)
Definition sample_processed : Obj.t :=
  [("time", JsString "2023-11-14T22:13:20.000Z");
   ("description", JsString "Coffee");
   ("mcc", JsNumber 5814);
   ("originalMcc", JsNumber 5814);
   ("hold", JsBoolean false);
   ("amount", JsNumber 150);
   ("operationAmount", JsNumber 150);
   ("currencyCode", JsNumber 980);
   ("commissionRate", JsNumber 0);
   ("cashbackAmount", JsNumber 3);
   ("balance", JsNumber 10000);
   ("comment", JsString "thanks");
   ("receiptId", JsUndefined);
   ("counterName", JsUndefined)].

(** The same call with the period end left at 0. *)
Definition sample_args_open_end : JsValue :=
  JsObject [("account_id", JsString "0");
            ("from_timestamp", JsNumber 1700000000);
            ("to_timestamp", JsNumber 0)].

Definition sample_parsed_open_end : GetStatementArgs :=
  {| account_id := "0"; from_timestamp := 1700000000; to_timestamp := 0 |}.

(** A call without [from_timestamp]. *)
Definition sample_args_missing_from : JsValue :=
  JsObject [("account_id", JsString "0"); ("to_timestamp", JsNumber 0)].

(** A call with keys the schema does not declare. *)
Definition sample_data_extra_keys : Obj.t :=
  [("verbose", JsBoolean true);
   ("account_id", JsString "0");
   ("from_timestamp", JsNumber 1700000000);
   ("limit", JsNumber 10);
   ("to_timestamp", JsNumber 1700003600)].

(** A client profile as the upstream sends it, and an upstream serving it. *)
Definition sample_profile : JsValue :=
  JsObject [("clientId", JsString "3MSaMMtczs");
            ("name", JsString "Taras");
            ("webHookUrl", JsString EmptyString);
            ("permissions", JsString "psfj");
            ("accounts",
             JsArray [JsObject [("id", JsString "kKGVoZuHWzqVoZuH");
                                ("balance", JsNumber 1000000);
                                ("currencyCode", JsNumber 980)]])].

Definition sample_world_profile : World :=
  {| MONOBANK_API_TOKEN := Some "token";
     clock := 1700003600123;
     client_info_endpoint := fun _ =>
       inr (mkResponse true 200 (inr "{...}") (inr sample_profile));
     statement_endpoint := fun _ => inl sample_transport_failure;
     requests := [] |}.

Definition sample_parsed : GetStatementArgs :=
  {| account_id := "0"; from_timestamp := 1700000000; to_timestamp := 1700003600 |}.

(** A raw item dated ten trillion seconds after the epoch, past what a Date
    can hold, and an upstream that serves it after a good one. *)
Definition sample_item_bad_time : StatementItem.t :=
  {| StatementItem.id := "bad";
     StatementItem.time := 10000000000000;
     StatementItem.description := "Far future";
     StatementItem.mcc := 0;
     StatementItem.originalMcc := 0;
     StatementItem.hold := true;
     StatementItem.amount := 100;
     StatementItem.operationAmount := 100;
     StatementItem.currencyCode := 980;
     StatementItem.commissionRate := 0;
     StatementItem.cashbackAmount := 0;
     StatementItem.balance := 100;
     StatementItem.comment := None;
     StatementItem.receiptId := None;
     StatementItem.invoiceId := None;
     StatementItem.counterEdrpou := None;
     StatementItem.counterIban := None;
     StatementItem.counterName := None |}.

Definition sample_response_bad_time : Response (list StatementItem.t) :=
  mkResponse true 200 (inr "[...]") (inr [sample_item; sample_item_bad_time]).

Definition sample_world_bad_time : World :=
  {| MONOBANK_API_TOKEN := Some "token";
     clock := 1700003600123;
     client_info_endpoint := fun _ => inl sample_transport_failure;
     statement_endpoint := fun _ => inr sample_response_bad_time;
     requests := [] |}.

(** A second transaction at the same second as [sample_item]. *)
Definition sample_item_same_second : StatementItem.t :=
  {| StatementItem.id := "again";
     StatementItem.time := 1700000000;
     StatementItem.description := "Tea";
     StatementItem.mcc := 5814;
     StatementItem.originalMcc := 5814;
     StatementItem.hold := true;
     StatementItem.amount := -4500;
     StatementItem.operationAmount := -4500;
     StatementItem.currencyCode := 980;
     StatementItem.commissionRate := 0;
     StatementItem.cashbackAmount := 0;
     StatementItem.balance := 995500;
     StatementItem.comment := None;
     StatementItem.receiptId := Some "r-1";
     StatementItem.invoiceId := None;
     StatementItem.counterEdrpou := None;
     StatementItem.counterIban := None;
     StatementItem.counterName := Some "Cafe" |}.

(** What [sample_item_same_second] is expected to become. *)
Definition sample_processed_same_second : Obj.t :=
  [("time", JsString "2023-11-14T22:13:20.000Z");
   ("description", JsString "Tea");
   ("mcc", JsNumber 5814);
   ("originalMcc", JsNumber 5814);
   ("hold", JsBoolean true);
   ("amount", JsNumber (-45));
   ("operationAmount", JsNumber (-45));
   ("currencyCode", JsNumber 980);
   ("commissionRate", JsNumber 0);
   ("cashbackAmount", JsNumber 0);
   ("balance", JsNumber 9955);
   ("comment", JsUndefined);
   ("receiptId", JsString "r-1");
   ("counterName", JsString "Cafe")].

(** An upstream that serves three items, the first of them twice. *)
Definition sample_statement_of_three : list StatementItem.t :=
  [sample_item; sample_item_same_second; sample_item].

Definition sample_response_of_three : Response (list StatementItem.t) :=
  mkResponse true 200 (inr "[...]") (inr sample_statement_of_three).

Definition sample_world_of_three : World :=
  {| MONOBANK_API_TOKEN := Some "token";
     clock := 1700003600123;
     client_info_endpoint := fun _ => inl sample_transport_failure;
     statement_endpoint := fun _ => inr sample_response_of_three;
     requests := [] |}.

(** The engine's printer of non-integral Numbers is not consulted by the
    samples; this one stands in for it. *)
Definition sample_toString_fractional : float -> string := fun _ => "?".

(** ** The server: [getClientInfo], [getStatement], the tool-call handler *)
Section Server.
Variable toString_fractional : float -> string.

Local Open Scope M_scope.

(** A Number inside a template literal. *)
Definition Number_toString : float -> string :=
  Number.toString toString_fractional.

(** [JSON.stringify(value, null, 2)] *)
Definition JSON_stringify : JsValue -> option string :=
  JSON.stringify toString_fractional.

(** [string | undefined] inside a template literal. *)
Definition String_of (s : option string) : string :=
  match s with Some s => s | None => "undefined" end.

(** [ZodError.prototype.message]: the issues, pretty-printed. *)
Definition ZodError_message (issues : list Zod.Issue) : string :=
  String_of (JSON_stringify (JsArray (map Zod.Issue_toJs issues))).

(** [schema.parse(args)]: the parsed value, or a thrown [ZodError]. *)
Definition schema_parse {A : Type} (schema : JsValue -> Zod.Parsed A) (args : JsValue) : M A :=
  match schema args with
  | inr parsed => ret parsed
  | inl issues => throw (ZodError issues)
  end.

Definition failure_prefix : string := "Failed to connect to Monobank API: ".

(** The [catch (error)] block shared by both tools:
    [error instanceof Error] selects [error.message], anything else goes
    through [String(error)]. *)
Definition rethrow {A : Type} (error : Thrown) : M A :=
  match error with
  | JsError _ message => throw (JsError "Error" (failure_prefix ++ message))
  | ZodError issues =>
      throw (JsError "Error" (failure_prefix ++ ZodError_message issues))
  | NonError text => throw (JsError "Error" (failure_prefix ++ text))
  end.

(** [if (!response.ok) { const errorText = await response.text();
    throw new Error(...) }] *)
Definition check_ok {A : Type} (response : Response A) : M unit :=
  if negb (ok response) then
    errorText <- settle (body_text response) ;;
    throw (JsError "Error"
             ("HTTP error! status: " ++ Number_toString (status response)
              ++ ", body: " ++ errorText))
  else ret tt.

Definition text_result (text : option string) : ToolResult :=
  {| content := [ {| type := "text"; text := text |} ] |}.

Definition getClientInfo : M ToolResult :=
  try_catch
    (token <- getenv_MONOBANK_API_TOKEN ;;
     response <- fetch client_info_endpoint
       {| url := "https://api.monobank.ua/personal/client-info";
          headers := [("X-Token", or_string token "X_TOKEN_PLACEHOLDER")] |} ;;
     check_ok response ;;;
     data <- settle (body_json response) ;;
     ret (text_result (JSON_stringify data)))
    rethrow.

(** The callback of [data.map]: one [StatementItem] to the object literal
    [processedItem]. *)
Definition processItem (item : StatementItem.t) : Completion Obj.t :=
  match Date.toISOString (Date.new (StatementItem.time item * 1000)%float) with
  | inl e => inl e
  | inr time =>
      inr [("time", JsString time);
           ("description", JsString (StatementItem.description item));
           ("mcc", JsNumber (StatementItem.mcc item));
           ("originalMcc", JsNumber (StatementItem.originalMcc item));
           ("hold", JsBoolean (StatementItem.hold item));
           ("amount", JsNumber (StatementItem.amount item / 100)%float);
           ("operationAmount", JsNumber (StatementItem.operationAmount item / 100)%float);
           ("currencyCode", JsNumber (StatementItem.currencyCode item));
           ("commissionRate", JsNumber (StatementItem.commissionRate item / 100)%float);
           ("cashbackAmount", JsNumber (StatementItem.cashbackAmount item / 100)%float);
           ("balance", JsNumber (StatementItem.balance item / 100)%float);
           ("comment", Obj.optional_string (StatementItem.comment item));
           ("receiptId", Obj.optional_string (StatementItem.receiptId item));
           ("counterName", Obj.optional_string (StatementItem.counterName item))]
  end.

(** [to_timestamp || Math.floor(Date.now() / 1000)] *)
Definition finalToTimestamp (to_timestamp : float) : M float :=
  if Number.truthy to_timestamp then ret to_timestamp
  else now <- Date_now ;; ret (Number.floor (now / 1000)%float).

Definition statement_url (account_id : string) (from_timestamp finalToTimestamp : float) : string :=
  "https://api.monobank.ua/personal/statement/" ++ account_id
    ++ "/" ++ Number_toString from_timestamp
    ++ "/" ++ Number_toString finalToTimestamp.

Definition getStatement (args : JsValue) : M ToolResult :=
  parsed <- schema_parse GetStatementArgsSchema args ;;
  finalTo <- finalToTimestamp (to_timestamp parsed) ;;
  try_catch
    (token <- getenv_MONOBANK_API_TOKEN ;;
     response <- fetch statement_endpoint
       {| url := statement_url (account_id parsed) (from_timestamp parsed) finalTo;
          headers := [("X-Token", or_string token "X_TOKEN_PLACEHOLDER")] |} ;;
     check_ok response ;;;
     data <- settle (body_json response) ;;
     processedItems <- settle (Array_map processItem data) ;;
     ret (text_result (JSON_stringify (JsArray (map JsObject processedItems)))))
    rethrow.

(** The handler registered for [CallToolRequestSchema]:
    [switch (request.params.name)]. *)
Definition CallTool (name : string) (arguments : JsValue) : M ToolResult :=
  if String.eqb name "get_client_info" then getClientInfo
  else if String.eqb name "get_statement" then getStatement arguments
  else throw (JsError "Error" ("Unknown tool: " ++ name)).

(** *** What one call sends

    The request [getStatement] builds from parsed arguments in world [w],
    and the one [getClientInfo] builds. *)
Definition token_header (w : World) : list (string * string) :=
  [("X-Token", or_string (MONOBANK_API_TOKEN w) "X_TOKEN_PLACEHOLDER")].

Definition now_seconds (w : World) : float :=
  Number.floor (clock w / 1000)%float.

Definition effective_to (w : World) (parsed : GetStatementArgs) : float :=
  if Number.truthy (to_timestamp parsed) then to_timestamp parsed
  else now_seconds w.

Definition statement_request (w : World) (parsed : GetStatementArgs) : Request :=
  {| url := statement_url (account_id parsed) (from_timestamp parsed)
              (effective_to w parsed);
     headers := token_header w |}.

Definition client_info_request (w : World) : Request :=
  {| url := "https://api.monobank.ua/personal/client-info";
     headers := token_header w |}.

(** The message of the [Error] thrown on a non-success status. *)
Definition http_error_message (status : float) (errorText : string) : string :=
  "HTTP error! status: " ++ Number_toString status ++ ", body: " ++ errorText.

(** The message the shared [catch] block gives an exception. *)
Definition rethrown_message (error : Thrown) : string :=
  failure_prefix ++
    match error with
    | JsError _ message => message
    | ZodError issues => ZodError_message issues
    | NonError text => text
    end.

(** What remains of a call once the upstream has answered (or the
    transport has failed): shared by both tools up to the final
    transformation [finish] of the parsed body. *)
Definition after_fetch {A : Type} (finish : A -> Completion ToolResult)
    (answer : Completion (Response A)) : Completion ToolResult :=
  match answer with
  | inl e => inl (JsError "Error" (rethrown_message e))
  | inr response =>
      if ok response then
        match body_json response with
        | inl e => inl (JsError "Error" (rethrown_message e))
        | inr data =>
            match finish data with
            | inl e => inl (JsError "Error" (rethrown_message e))
            | inr result => inr result
            end
        end
      else
        match body_text response with
        | inl e => inl (JsError "Error" (rethrown_message e))
        | inr errorText =>
            inl (JsError "Error"
                   (failure_prefix ++ http_error_message (status response) errorText))
        end
  end.

Definition finish_client_info (data : JsValue) : Completion ToolResult :=
  inr (text_result (JSON_stringify data)).

Definition finish_statement (data : list StatementItem.t) : Completion ToolResult :=
  match Array_map processItem data with
  | inl e => inl e
  | inr processedItems =>
      inr (text_result (JSON_stringify (JsArray (map JsObject processedItems))))
  end.

(** *** Vocabulary of the properties *)

(** [needle] occurs somewhere in [hay]. *)
Definition contains (needle hay : string) : Prop :=
  exists before after, hay = before ++ needle ++ after.

(** The result [getStatement] returns for the processed items [items]. *)
Definition payload (items : list Obj.t) : ToolResult :=
  text_result (JSON_stringify (JsArray (map JsObject items))).

(** In world [w], the call [getStatement args] passed validation, the
    upstream answered its request with a success status and the sequence
    [data], and the [map] over [data] produced [items]. *)
Definition emits (args : JsValue) (w : World)
    (data : list StatementItem.t) (items : list Obj.t) : Prop :=
  exists parsed response,
    GetStatementArgsSchema args = inr parsed
    /\ statement_endpoint w (statement_request w parsed) = inr response
    /\ ok response = true
    /\ body_json response = inr data
    /\ Array_map processItem data = inr items.

(** The five monetary fields of a processed item against the raw item. *)
Definition money_divided_by_100 (item : StatementItem.t) (p : Obj.t) : Prop :=
  Obj.lookup "amount" p = Some (JsNumber (StatementItem.amount item / 100)%float)
  /\ Obj.lookup "operationAmount" p
     = Some (JsNumber (StatementItem.operationAmount item / 100)%float)
  /\ Obj.lookup "commissionRate" p
     = Some (JsNumber (StatementItem.commissionRate item / 100)%float)
  /\ Obj.lookup "cashbackAmount" p
     = Some (JsNumber (StatementItem.cashbackAmount item / 100)%float)
  /\ Obj.lookup "balance" p = Some (JsNumber (StatementItem.balance item / 100)%float).

(** The fields a processed item takes over as they are. *)
Definition copied_through (item : StatementItem.t) (p : Obj.t) : Prop :=
  Obj.lookup "description" p = Some (JsString (StatementItem.description item))
  /\ Obj.lookup "mcc" p = Some (JsNumber (StatementItem.mcc item))
  /\ Obj.lookup "originalMcc" p = Some (JsNumber (StatementItem.originalMcc item))
  /\ Obj.lookup "hold" p = Some (JsBoolean (StatementItem.hold item))
  /\ Obj.lookup "currencyCode" p = Some (JsNumber (StatementItem.currencyCode item))
  /\ Obj.lookup "comment" p = Some (Obj.optional_string (StatementItem.comment item))
  /\ Obj.lookup "receiptId" p = Some (Obj.optional_string (StatementItem.receiptId item))
  /\ Obj.lookup "counterName" p
     = Some (Obj.optional_string (StatementItem.counterName item)).

(** The keys the normalization drops. *)
Definition dropped_keys : list string :=
  ["id"; "invoiceId"; "counterEdrpou"; "counterIban"].

(** The raw time is one a Date can hold: [new Date(item.time * 1000)] is
    a valid Date. *)
Definition representable (item : StatementItem.t) : Prop :=
  exists tv : Z, Date.new (StatementItem.time item * 1000)%float = Some tv.

(** [items] is [data] processed position by position. *)
Definition same_sequence (data : list StatementItem.t) (items : list Obj.t) : Prop :=
  length items = length data
  /\ forall i : nat,
       match nth_error data i, nth_error items i with
       | Some item, Some p => processItem item = inr p
       | None, None => True
       | _, _ => False
       end.

(** The fields [GetStatementArgsSchema] declares, with their types. *)
Definition declared_fields : list (string * Zod.ParsedType) :=
  [("account_id", Zod.TString);
   ("from_timestamp", Zod.TNumber);
   ("to_timestamp", Zod.TNumber)].

(** Does [data[key]] have the declared type? A missing key reads as
    [undefined] and so has none of them. *)
Definition field_conforms (data : Obj.t) (field : string * Zod.ParsedType) : bool :=
  Zod.ParsedType_eqb (Zod.getParsedType (Obj.get (fst field) data)) (snd field).

(** The raw arguments conform to the declared schema: an object in which
    every declared field is present with its type. Other keys are free. *)
Definition conforms (args : JsValue) : bool :=
  match args with
  | JsObject data => forallb (field_conforms data) declared_fields
  | _ => false
  end.

(** The declared fields an arguments object gets wrong, in declaration
    order. *)
Definition offending (data : Obj.t) : list string :=
  map fst (filter (fun field => negb (field_conforms data field)) declared_fields).

(** A failure carries the wrapper of the shared [catch] block. *)
Definition wrapped (e : Thrown) : Prop :=
  exists message, e = JsError "Error" (failure_prefix ++ message).

(** The call [name] on [arguments] in world [w] went through without any
    failure and [result] is everything it had to return: the tool is one of
    the two, the arguments validated (for [get_statement]), the upstream
    answered the one request with a success status, the body parsed, every
    item of the sequence was processed, and [result] holds the whole of it;
    [w'] is [w] with that request logged. *)
Definition complete_success (name : string) (arguments : JsValue) (w : World)
    (result : ToolResult) (w' : World) : Prop :=
  (name = "get_client_info"
   /\ exists (response : Response JsValue) (data : JsValue),
        client_info_endpoint w (client_info_request w) = inr response
        /\ ok response = true
        /\ body_json response = inr data
        /\ result = text_result (JSON_stringify data)
        /\ w' = record_request (client_info_request w) w)
  \/ (name = "get_statement"
      /\ exists (parsed : GetStatementArgs)
                (response : Response (list StatementItem.t))
                (data : list StatementItem.t) (items : list Obj.t),
           GetStatementArgsSchema arguments = inr parsed
           /\ statement_endpoint w (statement_request w parsed) = inr response
           /\ ok response = true
           /\ body_json response = inr data
           /\ Array_map processItem data = inr items
           /\ same_sequence data items
           /\ result = payload items
           /\ w' = record_request (statement_request w parsed) w).

(** *** Vocabulary of the further properties *)

(** The requests a tool call hands to [fetch], in order: one for
    [get_client_info], one for a [get_statement] call whose arguments
    validate, none otherwise. *)
Definition requests_of_call (name : string) (arguments : JsValue) (w : World)
    : list Request :=
  if String.eqb name "get_client_info" then [client_info_request w]
  else if String.eqb name "get_statement" then
    match GetStatementArgsSchema arguments with
    | inr parsed => [statement_request w parsed]
    | inl _ => []
    end
  else [].

(** The upstream's answer gives no parsed body, because of [cause]: [fetch]
    rejected with it, or the answer has a success status and
    [response.json()] rejected with it, or the answer has a non-success
    status and [response.text()] rejected with it. *)
Definition gives_no_body {A : Type} (answer : Completion (Response A))
    (cause : Thrown) : Prop :=
  answer = inl cause
  \/ (exists response,
         answer = inr response /\ ok response = true
         /\ body_json response = inl cause)
  \/ (exists response,
         answer = inr response /\ ok response = false
         /\ body_text response = inl cause).

(** Two worlds with the same token, clock and upstream. *)
Definition same_environment (w w' : World) : Prop :=
  MONOBANK_API_TOKEN w' = MONOBANK_API_TOKEN w
  /\ clock w' = clock w
  /\ client_info_endpoint w' = client_info_endpoint w
  /\ statement_endpoint w' = statement_endpoint w.

(** The keys of a processed item that reach the JSON text: the eleven that
    are always defined, then each optional one the raw item has. *)
Definition emitted_keys (item : StatementItem.t) : list string :=
  (["time"; "description"; "mcc"; "originalMcc"; "hold"; "amount";
    "operationAmount"; "currencyCode"; "commissionRate"; "cashbackAmount";
    "balance"]
   ++ match StatementItem.comment item with Some _ => ["comment"] | None => [] end
   ++ match StatementItem.receiptId item with Some _ => ["receiptId"] | None => [] end
   ++ match StatementItem.counterName item with
      | Some _ => ["counterName"]
      | None => []
      end)%list.

(** One member of a serialized object: ["key": value]. *)
Definition member_line (indent : string) (o : Obj.t) (key : string) : string :=
  JSON.quote key ++ ": "
    ++ String_of (JSON.serialize toString_fractional indent (Obj.get key o)).

Definition is_undefined (v : JsValue) : bool :=
  match v with JsUndefined => true | _ => false end.

(** The JSON Schema type of a value, by name. *)
Definition json_type (v : JsValue) : string :=
  Zod.ParsedType_name (Zod.getParsedType v).

(** Arguments against a tool's advertised [inputSchema]
    ([type: "object"], [properties], [required]): an object that has every
    required property and in which every declared property that is present
    has its declared type. *)
Definition satisfies_inputSchema (tool : Tool) (arguments : JsValue) : bool :=
  match arguments with
  | JsObject data =>
      forallb (fun key => negb (is_undefined (Obj.get key data)))
        (tool_required tool)
      && forallb (fun p => is_undefined (Obj.get (fst p) data)
                           || String.eqb (json_type (Obj.get (fst p) data))
                                (property_type (snd p)))
           (tool_properties tool)
  | _ => false
  end.

(** ** Number arithmetic

    What the handlers need of binary64 arithmetic: which Numbers are falsy,
    and that a whole number of seconds times 1000 is computed exactly. The
    facts about rounding are read off [SpecFloat]'s definitions of
    [SFmul]. *)

Lemma digits2_pos_bounds (p : positive) :
  2 ^ (Zpos (digits2_pos p) - 1) <= Zpos p < 2 ^ Zpos (digits2_pos p).
Proof.
  induction p as [p IH | p IH |]; simpl digits2_pos.
  - rewrite Pos2Z.inj_succ.
    replace (Z.succ (Z.pos (digits2_pos p)) - 1) with (Z.succ (Z.pos (digits2_pos p) - 1)) by lia.
    rewrite !Z.pow_succ_r by lia. lia.
  - rewrite Pos2Z.inj_succ.
    replace (Z.succ (Z.pos (digits2_pos p)) - 1) with (Z.succ (Z.pos (digits2_pos p) - 1)) by lia.
    rewrite !Z.pow_succ_r by lia. lia.
  - simpl. lia.
Qed.

Lemma digits2_pos_unique (p : positive) (d : Z) :
  2 ^ (d - 1) <= Zpos p < 2 ^ d -> 0 < d -> Zpos (digits2_pos p) = d.
Proof.
  intros [Hlo Hhi] Hd. pose proof (digits2_pos_bounds p) as [Blo Bhi].
  set (d' := Z.pos (digits2_pos p)) in *.
  assert (0 < d') by (unfold d'; lia).
  destruct (Z.lt_trichotomy d' d) as [Hlt | [Heq | Hgt]]; [| exact Heq |].
  - assert (2 ^ d' <= 2 ^ (d - 1)) by (apply Z.pow_le_mono_r; lia). lia.
  - assert (2 ^ d <= 2 ^ (d' - 1)) by (apply Z.pow_le_mono_r; lia). lia.
Qed.

Lemma shr_1_double (m : Z) :
  0 <= m ->
  shr_1 {| shr_m := 2 * m; shr_r := false; shr_s := false |}
  = {| shr_m := m; shr_r := false; shr_s := false |}.
Proof. intros Hm. destruct m as [| p | p]; [reflexivity | reflexivity | lia]. Qed.

Lemma iter_pos_shr_1_exact (n : positive) :
  forall m : Z, 0 <= m ->
  iter_pos shr_1 n {| shr_m := m * 2 ^ Zpos n; shr_r := false; shr_s := false |}
  = {| shr_m := m; shr_r := false; shr_s := false |}.
Proof.
  induction n as [n IH | n IH |]; intros m Hm; cbn [iter_pos].
  - assert (Hp : 0 < 2 ^ Z.pos n) by (apply Z.pow_pos_nonneg; lia).
    assert (E : 2 ^ Z.pos n~1 = 2 * (2 ^ Z.pos n * 2 ^ Z.pos n)).
    { rewrite <- Z.pow_add_r, <- Z.pow_succ_r by lia. f_equal. lia. }
    replace (m * 2 ^ Z.pos n~1) with (2 * (m * 2 ^ Z.pos n * 2 ^ Z.pos n))
      by (rewrite E; ring).
    rewrite shr_1_double by nia. rewrite IH by nia. apply IH. exact Hm.
  - assert (Hp : 0 < 2 ^ Z.pos n) by (apply Z.pow_pos_nonneg; lia).
    assert (E : 2 ^ Z.pos n~0 = 2 ^ Z.pos n * 2 ^ Z.pos n).
    { rewrite <- Z.pow_add_r by lia. f_equal. lia. }
    replace (m * 2 ^ Z.pos n~0) with (m * 2 ^ Z.pos n * 2 ^ Z.pos n)
      by (rewrite E; ring).
    rewrite IH by nia. apply IH. exact Hm.
  - rewrite Z.pow_1_r, Z.mul_comm. apply shr_1_double. exact Hm.
Qed.

(** Rounding a mantissa [c * 2^j] that fits 53 bits once its trailing zeros
    are dropped: the result is exact, with a normalized mantissa. *)
Lemma binary_round_aux_exact (sx : bool) (c : positive) (j E : Z) :
  let D := Zpos (digits2_pos c) in
  D <= 53 -> 0 <= j -> 53 <= D + j ->
  -1074 <= E + D + j - 53 <= 971 ->
  binary_round_aux prec emax sx (Zpos c * 2 ^ j) E loc_Exact
  = S754_finite sx (Z.to_pos (Zpos c * 2 ^ (53 - D))) (E + D + j - 53).
Proof.
  intros D HD Hj HDj HE.
  pose proof (digits2_pos_bounds c) as [Blo Bhi]. fold D in Blo, Bhi.
  assert (HDpos : 0 < D) by (unfold D; lia).
  assert (Hpj : 0 < 2 ^ j) by (apply Z.pow_pos_nonneg; lia).
  assert (Hpk : 0 < 2 ^ (53 - D)) by (apply Z.pow_pos_nonneg; lia).
  (* the product mantissa *)
  destruct (Z.pos c * 2 ^ j) as [| M |] eqn:HM; try lia.
  assert (HdM : Zpos (digits2_pos M) = D + j).
  { apply digits2_pos_unique; [| lia]. rewrite <- HM.
    assert (E1 : 2 ^ (D + j - 1) = 2 ^ (D - 1) * 2 ^ j)
      by (rewrite <- Z.pow_add_r by lia; f_equal; lia).
    assert (E2 : 2 ^ (D + j) = 2 ^ D * 2 ^ j)
      by (rewrite <- Z.pow_add_r by lia; f_equal; lia).
    rewrite E1, E2. nia. }
  (* the normalized mantissa *)
  destruct (Z.pos c * 2 ^ (53 - D)) as [| m1 |] eqn:Hm1; try lia.
  assert (Hdm1 : Zpos (digits2_pos m1) = 53).
  { apply digits2_pos_unique; [| lia]. rewrite <- Hm1.
    assert (E1 : 2 ^ (53 - 1) = 2 ^ (D - 1) * 2 ^ (53 - D))
      by (rewrite <- Z.pow_add_r by lia; f_equal; lia).
    assert (E2 : 2 ^ 53 = 2 ^ D * 2 ^ (53 - D))
      by (rewrite <- Z.pow_add_r by lia; f_equal; lia).
    rewrite E1, E2. nia. }
  unfold binary_round_aux, shr_fexp. cbn [Zdigits2]. rewrite HdM.
  unfold fexp, SpecFloat.emin, prec, emax.
  replace (Z.max (D + j + E - 53) (3 - 1024 - 53)) with (D + j + E - 53) by lia.
  replace (D + j + E - 53 - E) with (D + j - 53) by lia.
  destruct (D + j - 53) as [| n |] eqn:Hn; try lia.
  { (* no bit to drop *)
    unfold shr. cbn [shr_record_of_loc shr_m loc_of_shr_record round_nearest_even Zdigits2].
    rewrite HdM.
    replace (Z.max (D + j + E - 53) (3 - 1024 - 53) - E) with 0 by lia.
    cbn [shr_m].
    destruct (Z.leb_spec E (1024 - 53)); [| lia].
    assert (M = m1) as -> by (replace j with (53 - D) in HM by lia; lia).
    cbn [Z.to_pos]. f_equal. lia. }
  unfold shr. cbn [shr_record_of_loc].
  replace (Z.pos M) with (Z.pos m1 * 2 ^ Z.pos n).
  2:{ rewrite <- HM, <- Hm1, <- Hn.
      replace j with ((53 - D) + (D + j - 53)) at 2 by lia.
      rewrite Z.pow_add_r by lia. ring. }
  rewrite iter_pos_shr_1_exact by lia.
  cbn [shr_m loc_of_shr_record round_nearest_even Zdigits2]. rewrite Hdm1.
  replace (Z.max (53 + (E + Z.pos n) - 53) (3 - 1024 - 53) - (E + Z.pos n)) with 0 by lia.
  cbn [shr_m].
  destruct (Z.leb_spec (E + Z.pos n) (1024 - 53)); [| lia].
  cbn [Z.to_pos]. f_equal. lia.
Qed.

Lemma Prim2SF_1000 : Prim2SF 1000 = S754_finite false 8796093022208000 (-43).
Proof. reflexivity. Qed.

Lemma TimeClip_of_finite (y : float) (sx : bool) (m1 : positive) (e1 v : Z) :
  Prim2SF y = S754_finite sx m1 e1 ->
  0 <= v <= Date.maxTime ->
  (0 <= e1 -> Zpos m1 * 2 ^ e1 = v) ->
  (e1 < 0 -> Zpos m1 = v * 2 ^ (- e1)) ->
  Date.TimeClip y = Some (if sx then - v else v).
Proof.
  intros Hy Hv Hpos Hneg.
  unfold Date.TimeClip, Date.magnitude_gt, Number.magnitude_trunc. rewrite Hy.
  destruct (Z.leb_spec 0 e1) as [He | He].
  - rewrite Z.shiftl_mul_pow2, (Hpos He) by lia.
    destruct (Z.ltb_spec Date.maxTime v); [lia | reflexivity].
  - assert (Hp : 0 < 2 ^ (- e1)) by (apply Z.pow_pos_nonneg; lia).
    rewrite Z.shiftl_mul_pow2, Z.shiftr_div_pow2, (Hneg He) by lia.
    rewrite Z.div_mul by lia.
    destruct (Z.ltb_spec (Date.maxTime * 2 ^ (- e1)) (v * 2 ^ (- e1))); [nia | reflexivity].
Qed.

(** The product of a Number with 1000, when the exact product
    [c * 2^(E + j)] is an integer within the time range. *)
Lemma TimeClip_exact_product (sx : bool) (c : positive) (j E : Z) (y : float) :
  Prim2SF y = binary_round_aux prec emax sx (Zpos c * 2 ^ j) E loc_Exact ->
  43 <= j -> 0 <= E + j -> 1000 <= Zpos c ->
  Zpos c * 2 ^ (E + j) <= Date.maxTime ->
  Date.TimeClip y
  = Some (if sx then - (Zpos c * 2 ^ (E + j)) else Zpos c * 2 ^ (E + j)).
Proof.
  intros Hy Hj Hg Hc Hmax.
  pose proof (digits2_pos_bounds c) as [Blo Bhi].
  set (D := Zpos (digits2_pos c)) in *.
  assert (Hpg : 0 < 2 ^ (E + j)) by (apply Z.pow_pos_nonneg; lia).
  assert (HD10 : 10 <= D).
  { destruct (Z.le_gt_cases 10 D) as [H | H]; [exact H |].
    assert (2 ^ D <= 2 ^ 9) by (apply Z.pow_le_mono_r; lia).
    change (2 ^ 9) with 512 in *. lia. }
  assert (HD53 : D <= 53).
  { destruct (Z.le_gt_cases D 53) as [H | H]; [exact H |].
    assert (2 ^ 53 <= 2 ^ (D - 1)) by (apply Z.pow_le_mono_r; lia).
    change (2 ^ 53) with 9007199254740992 in *. unfold Date.maxTime in *. nia. }
  assert (Hg43 : E + j < 43).
  { destruct (Z.lt_ge_cases (E + j) 43) as [H | H]; [exact H |].
    assert (2 ^ 43 <= 2 ^ (E + j)) by (apply Z.pow_le_mono_r; lia).
    change (2 ^ 43) with 8796093022208 in *. unfold Date.maxTime in *. nia. }
  rewrite binary_round_aux_exact in Hy; fold D; try lia.
  fold D in Hy.
  assert (Hpk : 0 < 2 ^ (53 - D)) by (apply Z.pow_pos_nonneg; lia).
  eapply TimeClip_of_finite; [exact Hy | | |].
  - lia.
  - intros He. rewrite Z2Pos.id by nia.
    rewrite <- Z.mul_assoc, <- Z.pow_add_r by lia. do 2 f_equal. lia.
  - intros He. rewrite Z2Pos.id by nia.
    rewrite <- Z.mul_assoc, <- Z.pow_add_r by lia. do 2 f_equal. lia.
Qed.

Lemma mul_1000_spec (x : float) :
  Prim2SF (x * 1000)%float
  = SFmul prec emax (Prim2SF x) (S754_finite false 8796093022208000 (-43)).
Proof. rewrite FloatAxioms.mul_spec, Prim2SF_1000. reflexivity. Qed.

(** A whole number of seconds within the time range of a Date, times 1000,
    is exactly that many milliseconds: the Number product does not round. *)
Lemma whole_seconds_in_milliseconds (x : float) (s : Z) :
  Number.to_integer x = Some s ->
  Z.abs s <= 8640000000000 ->
  Date.TimeClip (x * 1000)%float = Some (1000 * s).
Proof.
  unfold Number.to_integer. intros Hint Hs.
  pose proof (mul_1000_spec x) as Hmul.
  destruct (Prim2SF x) as [sx | sx | | sx mx ex]; try discriminate.
  - injection Hint as <-. cbn [SFmul] in Hmul.
    unfold Date.TimeClip. rewrite Hmul. reflexivity.
  - destruct (Number.magnitude_integral mx ex) eqn:Hintegral; [| discriminate].
    injection Hint as <-.
    cbn [SFmul] in Hmul. rewrite xorb_false_r in Hmul.
    unfold Number.magnitude_integral, Number.magnitude_trunc in *.
    destruct (Z.leb_spec 0 ex) as [Hex | Hex].
    + (* an integer mantissa scaled up *)
      rewrite Z.shiftl_mul_pow2 in * by lia.
      assert (Hp : 0 < 2 ^ ex) by (apply Z.pow_pos_nonneg; lia).
      assert (Ha : Z.pos mx * 2 ^ ex <= 8640000000000) by (destruct sx; lia).
      replace (Z.pos (mx * 8796093022208000))
        with (Z.pos (1000 * mx) * 2 ^ 43) in Hmul by (change (2 ^ 43) with 8796093022208; lia).
      apply TimeClip_exact_product in Hmul; try lia.
      * rewrite Hmul. replace (ex + -43 + 43) with ex by lia.
        f_equal. destruct sx; lia.
      * replace (ex + -43 + 43) with ex by lia. unfold Date.maxTime. lia.
    + (* a mantissa with [- ex] trailing zero bits *)
      rewrite Z.shiftr_div_pow2, Z.shiftl_mul_pow2 in * by lia.
      apply Z.eqb_eq in Hintegral.
      assert (Hp : 0 < 2 ^ (- ex)) by (apply Z.pow_pos_nonneg; lia).
      set (q := Z.pos mx / 2 ^ (- ex)) in *.
      assert (Hq : 0 < q) by nia.
      assert (Ha : q <= 8640000000000) by (destruct sx; lia).
      replace (Z.pos (mx * 8796093022208000))
        with (Z.pos (Z.to_pos (1000 * q)) * 2 ^ (- ex + 43)) in Hmul.
      2:{ rewrite Z2Pos.id by lia. rewrite Z.pow_add_r by lia.
          change (2 ^ 43) with 8796093022208.
          rewrite Pos2Z.inj_mul, <- Hintegral. ring. }
      apply TimeClip_exact_product in Hmul;
        rewrite ?Z2Pos.id by lia;
        try replace (ex + -43 + (- ex + 43)) with 0 by lia;
        unfold Date.maxTime; try lia.
      rewrite Hmul, Z2Pos.id by lia.
      replace (ex + -43 + (- ex + 43)) with 0 by lia.
      f_equal. destruct sx; lia.
Qed.

(** The falsy Numbers other than NaN are the two zeros. *)
Lemma falsy_number (x : float) :
  PrimFloat.is_nan x = false ->
  (Number.truthy x = false <-> x = PrimFloat.zero \/ x = PrimFloat.neg_zero).
Proof.
  intros Hnan. unfold Number.truthy. rewrite Hnan, orb_false_r. split.
  - intros H. apply negb_false_iff in H. unfold PrimFloat.is_zero in H.
    rewrite FloatAxioms.eqb_spec in H.
    rewrite <- (SF2Prim_Prim2SF x).
    destruct (Prim2SF x) as [[|] | [|] | | [|] m e]; try discriminate H; auto.
  - intros [-> | ->]; reflexivity.
Qed.

Lemma TimeClip_range (time : float) (tv : Z) :
  Date.TimeClip time = Some tv -> - Date.maxTime <= tv <= Date.maxTime.
Proof.
  unfold Date.TimeClip, Date.magnitude_gt, Number.magnitude_trunc.
  destruct (Prim2SF time) as [s | s | | s m e]; try discriminate.
  - intros [= <-]. unfold Date.maxTime. lia.
  - destruct (Z.leb_spec 0 e) as [He | He].
    + destruct (Z.ltb_spec Date.maxTime (Z.shiftl (Z.pos m) e)) as [H | H];
        [discriminate |].
      intros [= <-].
      assert (0 <= Z.shiftl (Z.pos m) e) by (apply Z.shiftl_nonneg; lia).
      destruct s; lia.
    + destruct (Z.ltb_spec (Z.shiftl Date.maxTime (- e)) (Z.pos m)) as [H | H];
        [discriminate |].
      intros [= <-].
      rewrite Z.shiftl_mul_pow2 in H by lia.
      rewrite Z.shiftr_div_pow2 by lia.
      assert (Hp : 0 < 2 ^ (- e)) by (apply Z.pow_pos_nonneg; lia).
      assert (0 <= Z.pos m / 2 ^ (- e)) by (apply Z.div_pos; lia).
      assert (Z.pos m / 2 ^ (- e) <= Date.maxTime)
        by (apply Z.div_le_upper_bound; lia).
      destruct s; lia.
Qed.

(** ** Calendar arithmetic: the format and its reading agree *)

Ltac euclid := Z.to_euclidean_division_equations; lia.

Lemma YearFromTime_spec (t : Z) :
  Date.DayFromYear (Date.YearFromTime t) <= Date.Day t
  < Date.DayFromYear (Date.YearFromTime t + 1).
Proof.
  unfold Date.YearFromTime.
  set (d := Date.Day t). clearbody d.
  destruct (Z.leb_spec (Date.DayFromYear (1970 + 400 * d / 146097 + 1)) d) as [H1 | H1];
    [| destruct (Z.leb_spec (Date.DayFromYear (1970 + 400 * d / 146097)) d) as [H2 | H2]];
    unfold Date.DayFromYear in *; euclid.
Qed.

Lemma DayFromYear_monotone (y y' : Z) :
  y <= y' -> Date.DayFromYear y <= Date.DayFromYear y'.
Proof. intros H. unfold Date.DayFromYear. euclid. Qed.

(** [YearFromTime t] is the largest year that has begun by [t], as ECMA-262
    defines it. *)
Lemma YearFromTime_largest (t y : Z) :
  Date.TimeFromYear y <= t <-> y <= Date.YearFromTime t.
Proof.
  pose proof (YearFromTime_spec t) as [Hlo Hhi].
  assert (Hday : Date.TimeFromYear y <= t <-> Date.DayFromYear y <= Date.Day t)
    by (unfold Date.TimeFromYear, Date.Day, Date.msPerDay; euclid).
  rewrite Hday. split; intros H.
  - destruct (Z.le_gt_cases y (Date.YearFromTime t)) as [Hle | Hgt]; [exact Hle |].
    pose proof (DayFromYear_monotone (Date.YearFromTime t + 1) y ltac:(lia)). lia.
  - pose proof (DayFromYear_monotone y (Date.YearFromTime t) H). lia.
Qed.

Lemma DayFromYear_succ (y : Z) :
  Date.DayFromYear (y + 1) = Date.DayFromYear y + Date.DaysInYear y.
Proof.
  unfold Date.DayFromYear, Date.DaysInYear.
  destruct (Z.eqb_spec (y mod 400) 0); [euclid |].
  destruct (Z.eqb_spec (y mod 100) 0); [euclid |].
  destruct (Z.eqb_spec (y mod 4) 0); euclid.
Qed.

Lemma DaysInYear_cases (y : Z) : Date.DaysInYear y = 365 + DateString.leap y.
Proof.
  unfold DateString.leap, Date.DaysInYear.
  destruct (y mod 400 =? 0); [reflexivity |].
  destruct (y mod 100 =? 0); [reflexivity |].
  destruct (y mod 4 =? 0); reflexivity.
Qed.

Lemma leap_cases (y : Z) : DateString.leap y = 0 \/ DateString.leap y = 1.
Proof. unfold DateString.leap. destruct (_ =? _); auto. Qed.

Lemma InLeapYear_leap (t : Z) : Date.InLeapYear t = DateString.leap (Date.YearFromTime t).
Proof. reflexivity. Qed.

Lemma DayWithinYear_range (t : Z) :
  0 <= Date.DayWithinYear t < 365 + DateString.leap (Date.YearFromTime t).
Proof.
  unfold Date.DayWithinYear.
  pose proof (YearFromTime_spec t) as H.
  rewrite DayFromYear_succ, DaysInYear_cases in H. lia.
Qed.

(** The year, month and date of a time value name its day. *)
Lemma MakeDay_of_time (t : Z) :
  DateString.MakeDay (Date.YearFromTime t) (Date.MonthFromTime t) (Date.DateFromTime t)
  = Date.Day t.
Proof.
  pose proof (DayWithinYear_range t) as Hd.
  pose proof (leap_cases (Date.YearFromTime t)) as Hl.
  unfold DateString.MakeDay, Date.DateFromTime, Date.MonthFromTime, DateString.DaysBeforeMonth.
  rewrite InLeapYear_leap.
  set (l := DateString.leap (Date.YearFromTime t)) in *.
  assert (Hday : Date.Day t = Date.DayFromYear (Date.YearFromTime t) + Date.DayWithinYear t)
    by (unfold Date.DayWithinYear; lia).
  rewrite Hday. set (d := Date.DayWithinYear t) in *. clearbody d l.
  repeat (match goal with
          | |- context [if ?a <? ?b then _ else _] => destruct (Z.ltb_spec a b)
          end; cbv beta iota).
  all: lia.
Qed.

Lemma month_date_valid (t : Z) :
  0 <= Date.MonthFromTime t <= 11
  /\ 1 <= Date.DateFromTime t
     <= DateString.DaysInMonth (Date.YearFromTime t) (Date.MonthFromTime t).
Proof.
  pose proof (DayWithinYear_range t) as Hd.
  pose proof (leap_cases (Date.YearFromTime t)) as Hl.
  unfold DateString.DaysInMonth, Date.DateFromTime, Date.MonthFromTime.
  rewrite InLeapYear_leap.
  set (l := DateString.leap (Date.YearFromTime t)) in *.
  set (d := Date.DayWithinYear t) in *. clearbody d l.
  repeat (match goal with
          | |- context [if ?a <? ?b then _ else _] => destruct (Z.ltb_spec a b)
          end; cbv beta iota).
  all: destruct Hl; subst l; cbn; lia.
Qed.

Lemma MakeTime_of_time (t : Z) :
  DateString.MakeTime (Date.HourFromTime t) (Date.MinFromTime t)
    (Date.SecFromTime t) (Date.msFromTime t)
  = Date.TimeWithinDay t.
Proof.
  unfold DateString.MakeTime, Date.HourFromTime, Date.MinFromTime, Date.SecFromTime,
    Date.msFromTime, Date.TimeWithinDay, Date.msPerHour, Date.msPerMinute,
    Date.msPerSecond, Date.msPerDay.
  euclid.
Qed.

Lemma MakeDate_of_time (t : Z) :
  DateString.MakeDate (Date.Day t) (Date.TimeWithinDay t) = t.
Proof.
  unfold DateString.MakeDate, Date.Day, Date.TimeWithinDay, Date.msPerDay. euclid.
Qed.

Lemma time_fields_range (t : Z) :
  0 <= Date.HourFromTime t <= 23 /\ 0 <= Date.MinFromTime t <= 59
  /\ 0 <= Date.SecFromTime t <= 59 /\ 0 <= Date.msFromTime t <= 999.
Proof.
  unfold Date.HourFromTime, Date.MinFromTime, Date.SecFromTime, Date.msFromTime,
    Date.msPerHour, Date.msPerMinute, Date.msPerSecond.
  euclid.
Qed.

(** Within the time range of a Date the year has at most six digits. *)
Lemma YearFromTime_range (t : Z) :
  - Date.maxTime <= t <= Date.maxTime ->
  -271821 <= Date.YearFromTime t <= 275760.
Proof.
  intros Ht. pose proof (YearFromTime_spec t) as H.
  set (y := Date.YearFromTime t) in *. clearbody y.
  unfold Date.DayFromYear, Date.Day, Date.msPerDay, Date.maxTime in *. euclid.
Qed.

(** ** Digits *)

Lemma digit_value_digit_char (d : Z) :
  0 <= d <= 9 -> DateString.digit_value (Number.digit_char d) = Some d.
Proof.
  intros H.
  assert (Hd : d = 0 \/ d = 1 \/ d = 2 \/ d = 3 \/ d = 4 \/ d = 5 \/ d = 6
               \/ d = 7 \/ d = 8 \/ d = 9) by lia.
  repeat (destruct Hd as [-> | Hd]; [reflexivity |]). subst d. reflexivity.
Qed.

Lemma digit_char_not_sign (d : Z) :
  0 <= d <= 9 ->
  Ascii.eqb (Number.digit_char d) "+" = false
  /\ Ascii.eqb (Number.digit_char d) "-" = false.
Proof.
  intros H.
  assert (Hd : d = 0 \/ d = 1 \/ d = 2 \/ d = 3 \/ d = 4 \/ d = 5 \/ d = 6
               \/ d = 7 \/ d = 8 \/ d = 9) by lia.
  repeat (destruct Hd as [-> | Hd]; [split; reflexivity |]). subst d. split; reflexivity.
Qed.

Lemma read_digits_pad_onto (k j : nat) (n acc : Z) (rest : string) :
  0 <= n < 10 ^ Z.of_nat k ->
  DateString.read_digits (k + j) acc (Date.pad_onto k n rest)
  = DateString.read_digits j (acc * 10 ^ Z.of_nat k + n) rest.
Proof.
  revert j n acc rest. induction k as [| k IH]; intros j n acc rest Hn.
  - simpl in *. f_equal. lia.
  - rewrite Nat2Z.inj_succ, Z.pow_succ_r in Hn by lia.
    change (Date.pad_onto (S k) n rest)
      with (Date.pad_onto k (n / 10) (String (Number.digit_char (n mod 10)) rest)).
    replace (S k + j)%nat with (k + S j)%nat by lia.
    rewrite IH by euclid.
    cbn [DateString.read_digits].
    rewrite digit_value_digit_char by euclid.
    f_equal. rewrite Nat2Z.inj_succ, Z.pow_succ_r by lia. euclid.
Qed.

Lemma read_digits_pad (k : nat) (n : Z) (rest : string) :
  0 <= n < 10 ^ Z.of_nat k ->
  DateString.read_digits k 0 (Date.pad_onto k n rest) = Some (n, rest).
Proof.
  intros Hn. pose proof (read_digits_pad_onto k 0 n 0 rest Hn) as H.
  rewrite Nat.add_0_r in H. rewrite H. reflexivity.
Qed.

Lemma expect_same (c : ascii) (rest : string) :
  DateString.expect c (String c rest) = Some rest.
Proof. unfold DateString.expect. rewrite Ascii.eqb_refl. reflexivity. Qed.

Lemma read_year_format_year (y : Z) (rest : string) :
  -999999 <= y <= 999999 ->
  DateString.read_year (Date.format_year y rest) = Some (y, rest).
Proof.
  intros Hy. unfold Date.format_year.
  destruct (Z.leb_spec 0 y) as [H0 | H0]; [destruct (Z.leb_spec y 9999) as [H1 | H1] |];
    cbn [andb].
  - pose proof (read_digits_pad 4 y rest ltac:(simpl; lia)) as H.
    change (Date.pad_onto 4 y rest)
      with (String (Number.digit_char (y / 10 / 10 / 10 mod 10))
              (Date.pad_onto 0 (y / 10 / 10 / 10 / 10)
                 (String (Number.digit_char (y / 10 / 10 mod 10))
                    (String (Number.digit_char (y / 10 mod 10))
                       (String (Number.digit_char (y mod 10)) rest))))) in *.
    unfold DateString.read_year.
    destruct (digit_char_not_sign (y / 10 / 10 / 10 mod 10) ltac:(euclid)) as [-> ->].
    exact H.
  - destruct (Z.ltb_spec y 0); [lia |].
    unfold DateString.read_year. cbn [Ascii.eqb Bool.eqb].
    rewrite Z.abs_eq by lia. apply read_digits_pad. simpl. lia.
  - destruct (Z.ltb_spec y 0); [| lia].
    unfold DateString.read_year. cbn [Ascii.eqb Bool.eqb].
    rewrite read_digits_pad by (simpl; lia).
    destruct (Z.eqb_spec (Z.abs y) 0); [lia |].
    f_equal. f_equal. lia.
Qed.

Lemma read_two_digits (n : Z) (rest : string) :
  0 <= n <= 99 ->
  DateString.read_digits 2 0 (Date.pad_onto 2 n rest) = Some (n, rest).
Proof. intros H. apply read_digits_pad. change (10 ^ Z.of_nat 2) with 100. lia. Qed.

Lemma read_three_digits (n : Z) (rest : string) :
  0 <= n <= 999 ->
  DateString.read_digits 3 0 (Date.pad_onto 3 n rest) = Some (n, rest).
Proof. intros H. apply read_digits_pad. change (10 ^ Z.of_nat 3) with 1000. lia. Qed.

(** Reading back the string of a time value gives the time value. *)
Lemma parse_format (t : Z) :
  - Date.maxTime <= t <= Date.maxTime ->
  DateString.parse (Date.format t) = Some t.
Proof.
  intros Ht.
  pose proof (YearFromTime_range t Ht) as Hy.
  pose proof (month_date_valid t) as (Hm & Hd).
  pose proof (time_fields_range t) as (Hh & Hmi & Hs & Hms).
  assert (Hd31 : DateString.DaysInMonth (Date.YearFromTime t) (Date.MonthFromTime t) <= 31).
  { pose proof (leap_cases (Date.YearFromTime t)) as Hl.
    unfold DateString.DaysInMonth.
    assert (Hc : Date.MonthFromTime t = 0 \/ Date.MonthFromTime t = 1
                 \/ Date.MonthFromTime t = 2 \/ Date.MonthFromTime t = 3
                 \/ Date.MonthFromTime t = 4 \/ Date.MonthFromTime t = 5
                 \/ Date.MonthFromTime t = 6 \/ Date.MonthFromTime t = 7
                 \/ Date.MonthFromTime t = 8 \/ Date.MonthFromTime t = 9
                 \/ Date.MonthFromTime t = 10 \/ Date.MonthFromTime t = 11) by lia.
    repeat (destruct Hc as [-> | Hc]; [destruct Hl as [-> | ->]; cbn; lia |]).
    rewrite Hc. cbn. lia. }
  unfold DateString.parse, Date.format.
  rewrite read_year_format_year by lia. cbv beta iota.
  rewrite expect_same, read_two_digits by lia. cbv beta iota.
  rewrite expect_same, read_two_digits by lia. cbv beta iota.
  rewrite expect_same, read_two_digits by lia. cbv beta iota.
  rewrite expect_same, read_two_digits by lia. cbv beta iota.
  rewrite expect_same, read_two_digits by lia. cbv beta iota.
  rewrite expect_same, read_three_digits by lia. cbv beta iota.
  rewrite expect_same.
  replace (Date.MonthFromTime t + 1 - 1) with (Date.MonthFromTime t) by lia.
  rewrite MakeDay_of_time, MakeTime_of_time, MakeDate_of_time.
  repeat match goal with
         | |- context [?a <=? ?b] => destruct (Z.leb_spec a b); [| lia]
         end.
  reflexivity.
Qed.

(** ** Running the handlers *)

Lemma rethrow_run {A : Type} (e : Thrown) (w : World) :
  @rethrow A e w = (inl (JsError "Error" (rethrown_message e)), w).
Proof. destruct e; reflexivity. Qed.

Lemma getClientInfo_run (w : World) :
  getClientInfo w
  = (after_fetch finish_client_info (client_info_endpoint w (client_info_request w)),
     record_request (client_info_request w) w).
Proof.
  unfold getClientInfo, try_catch, bind, fetch, getenv_MONOBANK_API_TOKEN,
    after_fetch, check_ok, settle, ret, throw.
  fold (token_header w). fold (client_info_request w).
  destruct (client_info_endpoint w (client_info_request w)) as [e | response];
    [apply rethrow_run |].
  destruct (ok response); simpl.
  - destruct (body_json response) as [e | data]; [apply rethrow_run | reflexivity].
  - destruct (body_text response) as [e | errorText]; apply rethrow_run.
Qed.

Lemma finalToTimestamp_run (parsed : GetStatementArgs) (w : World) :
  finalToTimestamp (to_timestamp parsed) w = (inr (effective_to w parsed), w).
Proof.
  unfold finalToTimestamp, effective_to, now_seconds.
  destruct (Number.truthy (to_timestamp parsed)); reflexivity.
Qed.

Lemma getStatement_run (args : JsValue) (parsed : GetStatementArgs) (w : World) :
  GetStatementArgsSchema args = inr parsed ->
  getStatement args w
  = (after_fetch finish_statement (statement_endpoint w (statement_request w parsed)),
     record_request (statement_request w parsed) w).
Proof.
  intros Hparse.
  unfold getStatement, schema_parse. rewrite Hparse.
  unfold bind at 1. unfold ret at 1.
  unfold bind at 1. rewrite finalToTimestamp_run.
  unfold try_catch, bind, fetch, getenv_MONOBANK_API_TOKEN,
    after_fetch, check_ok, settle, ret, throw, finish_statement.
  fold (token_header w). fold (statement_request w parsed).
  destruct (statement_endpoint w (statement_request w parsed)) as [e | response];
    [apply rethrow_run |].
  destruct (ok response); simpl.
  - destruct (body_json response) as [e | data]; [apply rethrow_run |].
    destruct (Array_map processItem data) as [e | items];
      [apply rethrow_run | reflexivity].
  - destruct (body_text response) as [e | errorText]; apply rethrow_run.
Qed.

Lemma getStatement_invalid (args : JsValue) (issues : list Zod.Issue) (w : World) :
  GetStatementArgsSchema args = inl issues ->
  getStatement args w = (inl (ZodError issues), w).
Proof.
  intros Hparse. unfold getStatement, schema_parse. rewrite Hparse. reflexivity.
Qed.

(** ** The statement transformation *)

Lemma Array_map_Forall2 {A B : Type} (f : A -> Completion B) (l : list A) (l' : list B) :
  Array_map f l = inr l' -> Forall2 (fun a b => f a = inr b) l l'.
Proof.
  revert l'. induction l as [| a l IH]; simpl; intros l' H.
  - injection H as <-. constructor.
  - destruct (f a) as [e | b] eqn:Ha; [discriminate |].
    destruct (Array_map f l) as [e | bs]; [discriminate |].
    injection H as <-. constructor; auto.
Qed.

Lemma Array_map_returns {A B : Type} (f : A -> Completion B) (l : list A) :
  Forall (fun a => exists b, f a = inr b) l -> exists l', Array_map f l = inr l'.
Proof.
  induction 1 as [| a l [b Hb] _ [l' Hl']]; simpl.
  - eauto.
  - rewrite Hb, Hl'. eauto.
Qed.

Lemma Forall2_nth_error {A B : Type} (R : A -> B -> Prop) (l : list A) (l' : list B) :
  Forall2 R l l' ->
  forall i : nat,
    match nth_error l i, nth_error l' i with
    | Some a, Some b => R a b
    | None, None => True
    | _, _ => False
    end.
Proof.
  induction 1 as [| a b l l' Hab _ IH]; intros [| i]; simpl; auto.
  apply IH.
Qed.

Lemma Array_map_same_sequence (data : list StatementItem.t) (items : list Obj.t) :
  Array_map processItem data = inr items -> same_sequence data items.
Proof.
  intros H. apply Array_map_Forall2 in H. split.
  - symmetry. eapply Forall2_length; eassumption.
  - apply (Forall2_nth_error _ _ _ H).
Qed.

Lemma processItem_inv (item : StatementItem.t) (p : Obj.t) :
  processItem item = inr p ->
  exists time : string,
    Date.toISOString (Date.new (StatementItem.time item * 1000)%float) = inr time
    /\ p = [("time", JsString time);
            ("description", JsString (StatementItem.description item));
            ("mcc", JsNumber (StatementItem.mcc item));
            ("originalMcc", JsNumber (StatementItem.originalMcc item));
            ("hold", JsBoolean (StatementItem.hold item));
            ("amount", JsNumber (StatementItem.amount item / 100)%float);
            ("operationAmount", JsNumber (StatementItem.operationAmount item / 100)%float);
            ("currencyCode", JsNumber (StatementItem.currencyCode item));
            ("commissionRate", JsNumber (StatementItem.commissionRate item / 100)%float);
            ("cashbackAmount", JsNumber (StatementItem.cashbackAmount item / 100)%float);
            ("balance", JsNumber (StatementItem.balance item / 100)%float);
            ("comment", Obj.optional_string (StatementItem.comment item));
            ("receiptId", Obj.optional_string (StatementItem.receiptId item));
            ("counterName", Obj.optional_string (StatementItem.counterName item))].
Proof.
  unfold processItem. intros H.
  destruct (Date.toISOString _) as [e | time]; [discriminate |].
  injection H as <-. eauto.
Qed.

Lemma returns_emits (args : JsValue) (w w' : World) (result : ToolResult) :
  getStatement args w = (inr result, w') ->
  exists data items, emits args w data items /\ result = payload items.
Proof.
  intros Hrun.
  destruct (GetStatementArgsSchema args) as [issues | parsed] eqn:Hparse.
  - rewrite (getStatement_invalid _ _ _ Hparse) in Hrun. discriminate.
  - rewrite (getStatement_run _ _ _ Hparse) in Hrun.
    injection Hrun as Hres _. unfold after_fetch in Hres.
    destruct (statement_endpoint w _) as [e | response] eqn:Hfetch; [discriminate |].
    destruct (ok response) eqn:Hok.
    + destruct (body_json response) as [e | data] eqn:Hjson; [discriminate |].
      unfold finish_statement in Hres.
      destruct (Array_map processItem data) as [e | items] eqn:Hmap; [discriminate |].
      injection Hres as <-.
      exists data, items. split; [| reflexivity].
      exists parsed, response. auto.
    + destruct (body_text response); discriminate.
Qed.

Lemma emits_returns (args : JsValue) (w : World)
    (data : list StatementItem.t) (items : list Obj.t) :
  emits args w data items ->
  exists w', getStatement args w = (inr (payload items), w').
Proof.
  intros (parsed & response & Hparse & Hfetch & Hok & Hjson & Hmap).
  rewrite (getStatement_run _ _ _ Hparse). eexists. f_equal.
  unfold after_fetch, finish_statement. rewrite Hfetch, Hok, Hjson, Hmap.
  reflexivity.
Qed.

(** C1. Whenever [get_statement] returns, what it returns is the payload of
    a sequence of processed items, one per element of the upstream sequence,
    and in each the amount is the raw amount divided by 100 (the Number
    division of JavaScript), and likewise the operation amount, commission
    rate, cashback amount and balance. *)
Theorem get_statement_divides_money_by_100 :
  forall (args : JsValue) (w w' : World) (result : ToolResult),
    getStatement args w = (inr result, w') ->
    exists data items,
      emits args w data items
      /\ result = payload items
      /\ Forall2 money_divided_by_100 data items.
Proof.
  intros args w w' result Hrun.
  destruct (returns_emits _ _ _ _ Hrun) as (data & items & Hemits & ->).
  exists data, items. split; [exact Hemits | split; [reflexivity |]].
  destruct Hemits as (parsed & response & _ & _ & _ & _ & Hmap).
  apply Array_map_Forall2 in Hmap. clear Hrun.
  induction Hmap as [| item p data items Hp _ IH]; constructor; auto.
  destruct (processItem_inv _ _ Hp) as (time & _ & ->).
  repeat split; reflexivity.
Qed.

Lemma processItem_returns (item : StatementItem.t) :
  representable item -> exists p : Obj.t, processItem item = inr p.
Proof.
  intros (tv & Htv). unfold processItem. rewrite Htv. cbn [Date.toISOString]. eauto.
Qed.

Lemma same_sequence_determines_items (data : list StatementItem.t)
    (items : list Obj.t) :
  same_sequence data items -> Array_map processItem data = inr items.
Proof.
  revert items. induction data as [| item data IH]; intros items [Hlen Hnth].
  - destruct items; [reflexivity | discriminate Hlen].
  - destruct items as [| p items]; [discriminate Hlen |].
    pose proof (Hnth 0%nat) as H0. cbn in H0.
    cbn [Array_map]. rewrite H0, (IH items); [reflexivity |].
    split; [cbn in Hlen; lia |]. intros i. apply (Hnth (S i)).
Qed.

(** C2. For a valid [get_statement] call that the upstream answers with a
    success status and the sequence [data]: if every raw time is one a Date
    can hold, the call returns; and whatever it returns is the payload of a
    sequence with the length of [data] and, at every position, the
    processed form of the element of [data] at that position. Nothing is
    reordered, filtered out or merged. *)
Theorem get_statement_preserves_length_and_order :
  forall (args : JsValue) (parsed : GetStatementArgs) (w : World)
         (response : Response (list StatementItem.t)) (data : list StatementItem.t),
    GetStatementArgsSchema args = inr parsed ->
    statement_endpoint w (statement_request w parsed) = inr response ->
    ok response = true ->
    body_json response = inr data ->
    (Forall representable data ->
     exists items : list Obj.t,
       getStatement args w
       = (inr (payload items), record_request (statement_request w parsed) w)
       /\ same_sequence data items)
    /\ (forall (result : ToolResult) (w' : World),
           getStatement args w = (inr result, w') ->
           exists items : list Obj.t,
             result = payload items /\ same_sequence data items).
Proof.
  intros args parsed w response data Hparse Hfetch Hok Hjson.
  rewrite (getStatement_run _ _ _ Hparse).
  unfold after_fetch, finish_statement. rewrite Hfetch, Hok, Hjson. split.
  - intros Hdata.
    destruct (Array_map_returns processItem data) as (items & Hmap).
    { eapply Forall_impl; [| exact Hdata]. apply processItem_returns. }
    rewrite Hmap. exists items. split; [reflexivity |].
    apply (Array_map_same_sequence _ _ Hmap).
  - intros result w'.
    destruct (Array_map processItem data) as [e | items] eqn:Hmap; [discriminate |].
    intros [= <- _]. exists items. split; [reflexivity |].
    apply (Array_map_same_sequence _ _ Hmap).
Qed.

(** C4. Every processed item [get_statement] returns has exactly the
    fourteen keys of [ProcessedStatementItem]; [id], [invoiceId],
    [counterEdrpou] and [counterIban] are not among them, and
    [description], [mcc], [originalMcc], [hold], [currencyCode] and the
    optional [comment], [receiptId] and [counterName] hold the raw item's
    values (an absent optional stays [undefined], which the serialization
    leaves out). *)
Theorem get_statement_drops_and_copies_fields :
  forall (args : JsValue) (w w' : World) (result : ToolResult),
    getStatement args w = (inr result, w') ->
    exists data items,
      emits args w data items
      /\ result = payload items
      /\ Forall2 (fun item p =>
                    (forall k, In k dropped_keys -> Obj.lookup k p = None)
                    /\ (forall k, In k dropped_keys -> ~ In k (Obj.keys p))
                    /\ copied_through item p) data items.
Proof.
  intros args w w' result Hrun.
  destruct (returns_emits _ _ _ _ Hrun) as (data & items & Hemits & ->).
  exists data, items. split; [exact Hemits | split; [reflexivity |]].
  destruct Hemits as (parsed & response & _ & _ & _ & _ & Hmap).
  apply Array_map_Forall2 in Hmap. clear Hrun.
  induction Hmap as [| item p data items Hp _ IH]; constructor; auto.
  destruct (processItem_inv _ _ Hp) as (time & _ & ->).
  split; [| split].
  - intros k [<- | [<- | [<- | [<- | []]]]]; reflexivity.
  - intros k [<- | [<- | [<- | [<- | []]]]]; simpl;
      intuition discriminate.
  - repeat split; reflexivity.
Qed.

(** C3. The [time] of a processed item is the Date Time String of the
    instant [new Date(item.time * 1000)] holds, and reading that string
    back gives the same instant, to the millisecond. When the raw time is a
    whole number [s] of Unix seconds (within the range of a Date) the item
    is produced and the instant is exactly [1000 * s] ms: the product does
    not round. An item whose time leaves the range of a Date yields no
    processed item but a RangeError. Raw time 1700000000 is rendered as
    2023-11-14T22:13:20.000Z. *)
Theorem processed_time_denotes_raw_instant :
  forall item : StatementItem.t,
    (forall p : Obj.t,
        processItem item = inr p ->
        exists tv : Z,
          Date.new (StatementItem.time item * 1000)%float = Some tv
          /\ Obj.lookup "time" p = Some (JsString (Date.format tv))
          /\ DateString.parse (Date.format tv) = Some tv)
    /\ (forall s : Z,
           Number.to_integer (StatementItem.time item) = Some s ->
           Z.abs s <= 8640000000000 ->
           exists p : Obj.t,
             processItem item = inr p
             /\ Obj.lookup "time" p = Some (JsString (Date.format (1000 * s)))
             /\ DateString.parse (Date.format (1000 * s)) = Some (1000 * s))
    /\ (Date.new (StatementItem.time item * 1000)%float = None ->
        processItem item = inl (JsError "RangeError" "Invalid time value"))
    /\ (StatementItem.time item = 1700000000%float ->
        exists p : Obj.t,
          processItem item = inr p
          /\ Obj.lookup "time" p = Some (JsString "2023-11-14T22:13:20.000Z")).
Proof.
  intros item. repeat apply conj.
  - intros p Hp. destruct (processItem_inv _ _ Hp) as (time & Htime & ->).
    destruct (Date.new _) as [tv |] eqn:Hnew; [| discriminate].
    injection Htime as <-. exists tv. repeat split.
    apply parse_format. apply (TimeClip_range _ _ Hnew).
  - intros s Hint Hs.
    pose proof (whole_seconds_in_milliseconds _ _ Hint Hs) as Hclip.
    unfold processItem, Date.new. rewrite Hclip. cbn [Date.toISOString].
    eexists. repeat split.
    apply parse_format. apply (TimeClip_range _ _ Hclip).
  - intros Hnew. unfold processItem. rewrite Hnew. reflexivity.
  - intros Htime. unfold processItem. rewrite Htime.
    eexists. split; reflexivity.
Qed.

(** ** Validation *)

Lemma string__spec (path : list string) (input : JsValue) :
  match Zod.string_ path input with
  | inr s => input = JsString s
  | inl issues =>
      Zod.ParsedType_eqb (Zod.getParsedType input) Zod.TString = false
      /\ issues = [Zod.invalid_type path Zod.TString (Zod.getParsedType input)]
  end.
Proof.
  destruct input as [| | b | x | s | l | o]; cbn; auto.
  destruct (PrimFloat.is_nan x); auto.
Qed.

Lemma number_spec (path : list string) (input : JsValue) :
  match Zod.number path input with
  | inr x => input = JsNumber x /\ PrimFloat.is_nan x = false
  | inl issues =>
      Zod.ParsedType_eqb (Zod.getParsedType input) Zod.TNumber = false
      /\ issues = [Zod.invalid_type path Zod.TNumber (Zod.getParsedType input)]
  end.
Proof.
  destruct input as [| | b | x | s | l | o]; cbn; auto.
  destruct (PrimFloat.is_nan x) eqn:Hnan; cbn; auto.
Qed.

(** What the schema makes of an arguments object, field by field. *)
Lemma GetStatementArgsSchema_object (data : Obj.t) :
  match GetStatementArgsSchema (JsObject data) with
  | inr parsed =>
      forallb (field_conforms data) declared_fields = true
      /\ Obj.get "account_id" data = JsString (account_id parsed)
      /\ Obj.get "from_timestamp" data = JsNumber (from_timestamp parsed)
      /\ Obj.get "to_timestamp" data = JsNumber (to_timestamp parsed)
      /\ PrimFloat.is_nan (from_timestamp parsed) = false
      /\ PrimFloat.is_nan (to_timestamp parsed) = false
  | inl issues =>
      forallb (field_conforms data) declared_fields = false
      /\ issues <> []
      /\ map Zod.path issues = map (fun key => [key]) (offending data)
  end.
Proof.
  unfold GetStatementArgsSchema, Zod.object, Zod.field, offending,
    declared_fields, field_conforms.
  cbn [forallb filter fst snd].
  pose proof (string__spec ["account_id"] (Obj.get "account_id" data)) as Ha.
  pose proof (number_spec ["from_timestamp"] (Obj.get "from_timestamp" data)) as Hf.
  pose proof (number_spec ["to_timestamp"] (Obj.get "to_timestamp" data)) as Ht.
  destruct (Zod.string_ _ _) as [ia | a];
    destruct (Zod.number ["from_timestamp"] _) as [jf | f];
    destruct (Zod.number ["to_timestamp"] _) as [jt | t];
    cbn [Zod.merge];
    repeat match goal with
           | H : _ /\ _ |- _ => destruct H
           end;
    subst;
    repeat match goal with
           | H : Obj.get _ _ = _ |- _ => rewrite H
           | H : Zod.ParsedType_eqb _ _ = false |- _ => rewrite H
           end;
    cbn;
    repeat match goal with
           | H : PrimFloat.is_nan _ = false |- _ => rewrite H
           end;
    cbn; repeat split; auto; discriminate.
Qed.

(** C5. Arguments that violate the declared schema (not an object, or a
    declared field missing or of another type) make [get_statement] throw
    zod's validation error before anything else happens: the world is as it
    was, so no request was made. The error is not empty; for an arguments
    object its issues name, by their path, exactly the offending fields, in
    declaration order, and for anything that is not an object its one issue
    is at the root. *)
Theorem get_statement_rejects_invalid_arguments :
  forall (args : JsValue) (w : World),
    conforms args = false ->
    exists issues : list Zod.Issue,
      getStatement args w = (inl (ZodError issues), w)
      /\ requests (snd (getStatement args w)) = requests w
      /\ issues <> []
      /\ map Zod.path issues
         = match args with
           | JsObject data => map (fun key => [key]) (offending data)
           | _ => [[]]
           end.
Proof.
  intros args w Hviolates.
  assert (Hissues : exists issues,
             GetStatementArgsSchema args = inl issues
             /\ issues <> []
             /\ map Zod.path issues
                = match args with
                  | JsObject data => map (fun key => [key]) (offending data)
                  | _ => [[]]
                  end).
  { destruct args as [| | b | x | s | l | data];
      try (eexists; split; [reflexivity | split; [discriminate | reflexivity]]).
    pose proof (GetStatementArgsSchema_object data) as H.
    destruct (GetStatementArgsSchema (JsObject data)) as [issues | parsed].
    - exists issues. tauto.
    - cbn [conforms] in Hviolates. destruct H as [H _]. congruence. }
  destruct Hissues as (issues & Hparse & Hne & Hpaths).
  exists issues. rewrite (getStatement_invalid _ _ _ Hparse). auto.
Qed.

(** C10. An arguments object whose [account_id] is a string and whose
    [from_timestamp] and [to_timestamp] are numbers passes validation
    whatever other keys it holds; the parsed arguments are those three
    values, and any other object with the same three values gives the same
    outcome in the same world (same result or failure, same request): keys
    the schema does not declare have no effect. *)
Theorem get_statement_ignores_unknown_keys :
  forall (data : Obj.t) (w : World),
    conforms (JsObject data) = true ->
    exists parsed : GetStatementArgs,
      GetStatementArgsSchema (JsObject data) = inr parsed
      /\ Obj.get "account_id" data = JsString (account_id parsed)
      /\ Obj.get "from_timestamp" data = JsNumber (from_timestamp parsed)
      /\ Obj.get "to_timestamp" data = JsNumber (to_timestamp parsed)
      /\ forall data' : Obj.t,
           (forall key, In key (map fst declared_fields) ->
                        Obj.get key data' = Obj.get key data) ->
           getStatement (JsObject data') w = getStatement (JsObject data) w.
Proof.
  intros data w Hconforms.
  pose proof (GetStatementArgsSchema_object data) as H.
  destruct (GetStatementArgsSchema (JsObject data)) as [issues | parsed] eqn:Hparse.
  - cbn [conforms] in Hconforms. destruct H as [H _]. congruence.
  - destruct H as (_ & Ha & Hf & Ht & _).
    exists parsed. repeat split; auto.
    intros data' Hsame.
    assert (Hparse' : GetStatementArgsSchema (JsObject data') = inr parsed).
    { rewrite <- Hparse.
      unfold GetStatementArgsSchema, Zod.object, Zod.field.
      rewrite !Hsame by (cbn; auto). reflexivity. }
    rewrite (getStatement_run _ _ _ Hparse), (getStatement_run _ _ _ Hparse').
    reflexivity.
Qed.

Lemma schema_conforms (args : JsValue) :
  match GetStatementArgsSchema args with
  | inr parsed =>
      conforms args = true /\ PrimFloat.is_nan (to_timestamp parsed) = false
  | inl _ => conforms args = false
  end.
Proof.
  destruct args as [| | b | x | s | l | data]; try reflexivity.
  pose proof (GetStatementArgsSchema_object data) as H.
  destruct (GetStatementArgsSchema (JsObject data)); cbn [conforms]; tauto.
Qed.

(** C6. A valid [get_statement] call makes exactly one request, and the
    period end in its URL is [to_timestamp] as given unless that is falsy,
    which for a validated number means [+0] or [-0]; then it is
    [Math.floor(Date.now() / 1000)], the clock of the call in Unix
    seconds. *)
Theorem get_statement_defaults_period_end_to_now :
  forall (args : JsValue) (parsed : GetStatementArgs) (w : World),
    GetStatementArgsSchema args = inr parsed ->
    requests (snd (getStatement args w))
    = (requests w ++ [statement_request w parsed])%list
    /\ (Number.truthy (to_timestamp parsed) = false
        <-> to_timestamp parsed = PrimFloat.zero
            \/ to_timestamp parsed = PrimFloat.neg_zero)
    /\ (Number.truthy (to_timestamp parsed) = false ->
        url (statement_request w parsed)
        = statement_url (account_id parsed) (from_timestamp parsed)
            (Number.floor (clock w / 1000)%float))
    /\ (Number.truthy (to_timestamp parsed) = true ->
        url (statement_request w parsed)
        = statement_url (account_id parsed) (from_timestamp parsed)
            (to_timestamp parsed)).
Proof.
  intros args parsed w Hparse.
  pose proof (schema_conforms args) as Hc. rewrite Hparse in Hc.
  destruct Hc as [_ Hnan].
  rewrite (getStatement_run _ _ _ Hparse). cbn [snd record_request requests].
  split; [reflexivity |]. split; [apply falsy_number; exact Hnan |].
  unfold statement_request, effective_to, now_seconds. cbn [url].
  split; intros ->; reflexivity.
Qed.

(** ** Failures *)

Lemma string_app_assoc (a b c : string) : (a ++ b) ++ c = a ++ (b ++ c).
Proof. induction a as [| x a IH]; simpl; [reflexivity | now rewrite IH]. Qed.

Lemma string_app_nil_r (a : string) : a ++ EmptyString = a.
Proof. induction a as [| x a IH]; simpl; [reflexivity | now rewrite IH]. Qed.

Lemma contains_refl (a : string) : contains a a.
Proof. exists EmptyString, EmptyString. simpl. now rewrite string_app_nil_r. Qed.

Lemma contains_app_r (needle a b : string) : contains needle b -> contains needle (a ++ b).
Proof.
  intros (before & after & ->). exists (a ++ before), after.
  now rewrite string_app_assoc.
Qed.

Lemma contains_app_l (needle a b : string) : contains needle a -> contains needle (a ++ b).
Proof.
  intros (before & after & ->). exists before, (after ++ b).
  now rewrite !string_app_assoc.
Qed.

Lemma http_error_message_contains (status : float) (errorText : string) :
  contains (Number_toString status) (failure_prefix ++ http_error_message status errorText)
  /\ contains errorText (failure_prefix ++ http_error_message status errorText).
Proof.
  unfold http_error_message. split.
  - apply contains_app_r, contains_app_r, contains_app_l, contains_refl.
  - apply contains_app_r, contains_app_r, contains_app_r, contains_app_r,
      contains_refl.
Qed.

Lemma after_fetch_http_error {A : Type} (finish : A -> Completion ToolResult)
    (response : Response A) (errorText : string) :
  ok response = false ->
  body_text response = inr errorText ->
  after_fetch finish (inr response)
  = inl (JsError "Error" (failure_prefix ++ http_error_message (status response) errorText)).
Proof. intros Hok Htext. unfold after_fetch. now rewrite Hok, Htext. Qed.

Lemma after_fetch_failure_wrapped {A : Type} (finish : A -> Completion ToolResult)
    (answer : Completion (Response A)) (e : Thrown) :
  after_fetch finish answer = inl e -> wrapped e.
Proof.
  unfold after_fetch, wrapped.
  destruct answer as [e0 | response]; [intros [= <-]; eexists; reflexivity |].
  destruct (ok response).
  - destruct (body_json response) as [e0 | data];
      [intros [= <-]; eexists; reflexivity |].
    destruct (finish data) as [e0 | result];
      [intros [= <-]; eexists; reflexivity | discriminate].
  - destruct (body_text response) as [e0 | errorText];
      intros [= <-]; eexists; reflexivity.
Qed.

(** C7. When the upstream answers [get_client_info] or [get_statement]
    with a non-success status, and the body of the answer reads as the text
    [errorText], the call throws an [Error] and returns nothing; the
    message holds the status code, as the Number prints, and [errorText].
    The message is the same for both tools. *)
Theorem non_success_status_fails_with_status_and_body :
  forall (w : World) (errorText : string),
    (forall response : Response JsValue,
        client_info_endpoint w (client_info_request w) = inr response ->
        ok response = false ->
        body_text response = inr errorText ->
        exists message : string,
          fst (getClientInfo w) = inl (JsError "Error" message)
          /\ message = failure_prefix ++ http_error_message (status response) errorText
          /\ contains (Number_toString (status response)) message
          /\ contains errorText message)
    /\ (forall (args : JsValue) (parsed : GetStatementArgs)
               (response : Response (list StatementItem.t)),
           GetStatementArgsSchema args = inr parsed ->
           statement_endpoint w (statement_request w parsed) = inr response ->
           ok response = false ->
           body_text response = inr errorText ->
           exists message : string,
             fst (getStatement args w) = inl (JsError "Error" message)
             /\ message = failure_prefix ++ http_error_message (status response) errorText
             /\ contains (Number_toString (status response)) message
             /\ contains errorText message).
Proof.
  intros w errorText. split.
  - intros response Hfetch Hok Htext.
    rewrite getClientInfo_run, Hfetch, (after_fetch_http_error _ _ _ Hok Htext).
    eexists. split; [reflexivity |]. split; [reflexivity |].
    apply http_error_message_contains.
  - intros args parsed response Hparse Hfetch Hok Htext.
    rewrite (getStatement_run _ _ _ Hparse), Hfetch,
      (after_fetch_http_error _ _ _ Hok Htext).
    eexists. split; [reflexivity |]. split; [reflexivity |].
    apply http_error_message_contains.
Qed.

(** How a failing tool call fails: inside the [try] block of one of the two
    tools, on validation, or on the tool name. *)
Lemma failing_call_classified :
  forall (name : string) (arguments : JsValue) (w w' : World) (e : Thrown),
    CallTool name arguments w = (inl e, w') ->
    (name = "get_client_info" /\ wrapped e)
    \/ (name = "get_statement" /\ conforms arguments = true /\ wrapped e)
    \/ (name = "get_statement" /\ conforms arguments = false
        /\ (exists issues, e = ZodError issues) /\ w' = w)
    \/ (name <> "get_client_info" /\ name <> "get_statement"
        /\ e = JsError "Error" ("Unknown tool: " ++ name) /\ w' = w).
Proof.
  intros name arguments w w' e. unfold CallTool.
  destruct (String.eqb_spec name "get_client_info") as [-> | Hn1].
  - rewrite getClientInfo_run. intros [= He _].
    left. split; [reflexivity |]. apply (after_fetch_failure_wrapped _ _ _ He).
  - destruct (String.eqb_spec name "get_statement") as [-> | Hn2].
    + pose proof (schema_conforms arguments) as Hc.
      destruct (GetStatementArgsSchema arguments) as [issues | parsed] eqn:Hparse.
      * rewrite (getStatement_invalid _ _ _ Hparse). intros [= <- <-].
        right. right. left. eauto.
      * rewrite (getStatement_run _ _ _ Hparse). intros [= He _].
        right. left. destruct Hc as [Hc _].
        repeat split; auto. apply (after_fetch_failure_wrapped _ _ _ He).
    + unfold throw. intros [= <- <-]. right. right. right. auto.
Qed.

Lemma returning_call_is_complete (name : string) (arguments : JsValue)
    (w w' : World) (result : ToolResult) :
  CallTool name arguments w = (inr result, w')
  <-> complete_success name arguments w result w'.
Proof.
  unfold CallTool, complete_success.
  destruct (String.eqb_spec name "get_client_info") as [-> | Hn1].
  - rewrite getClientInfo_run. unfold after_fetch, finish_client_info. split.
    + intros [= Hres <-]. left. split; [reflexivity |].
      destruct (client_info_endpoint w _) as [e | response]; [discriminate |].
      destruct (ok response) eqn:Hok.
      * destruct (body_json response) as [e | data] eqn:Hjson; [discriminate |].
        injection Hres as <-. exists response, data. auto.
      * destruct (body_text response); discriminate.
    + intros [(_ & response & data & -> & -> & -> & -> & ->)
             | (Hname & _)]; [reflexivity | discriminate].
  - destruct (String.eqb_spec name "get_statement") as [-> | Hn2].
    + split.
      * intros Hrun. right. split; [reflexivity |].
        destruct (GetStatementArgsSchema arguments) as [issues | parsed] eqn:Hparse.
        { rewrite (getStatement_invalid _ _ _ Hparse) in Hrun. discriminate. }
        rewrite (getStatement_run _ _ _ Hparse) in Hrun.
        injection Hrun as Hres <-. unfold after_fetch, finish_statement in Hres.
        destruct (statement_endpoint w _) as [e | response] eqn:Hfetch; [discriminate |].
        destruct (ok response) eqn:Hok.
        { destruct (body_json response) as [e | data] eqn:Hjson; [discriminate |].
          destruct (Array_map processItem data) as [e | items] eqn:Hmap;
            [discriminate |].
          injection Hres as <-. exists parsed, response, data, items.
          repeat (split; [solve [auto] |]).
          split; [apply (Array_map_same_sequence _ _ Hmap) | auto]. }
        destruct (body_text response); discriminate.
      * intros [(Hname & _)
               | (_ & parsed & response & data & items
                  & Hparse & Hfetch & Hok & Hjson & Hmap & _ & -> & ->)];
          [discriminate |].
        rewrite (getStatement_run _ _ _ Hparse). unfold after_fetch, finish_statement.
        rewrite Hfetch, Hok, Hjson, Hmap. reflexivity.
    + unfold throw. split; [discriminate |].
      intros [(Hname & _) | (Hname & _)]; contradiction.
Qed.

(** C8, as the code has it. No error is swallowed and no partial result is
    returned: a tool call returns a result exactly when nothing failed (the
    tool is known, the arguments validated, the upstream answered the one
    request with a success status, the body parsed and every item was
    processed), and the result is then the whole payload; every other call
    throws. What it throws depends on where it failed. A failure inside the
    [try] block of [getClientInfo] or [getStatement] (transport failure,
    non-success status, unreadable body, a timestamp no Date can hold)
    surfaces as a single [Error] whose message begins
    [Failed to connect to Monobank API: ]. Arguments that violate the schema
    surface zod's error as thrown, and an unknown tool name surfaces
    [Unknown tool: <name>]; neither carries that prefix, and neither has
    touched the world. *)
Theorem no_failure_is_swallowed_and_try_failures_are_wrapped :
  forall (name : string) (arguments : JsValue) (w w' : World),
    (forall result : ToolResult,
        CallTool name arguments w = (inr result, w')
        <-> complete_success name arguments w result w')
    /\ (forall e : Thrown,
           CallTool name arguments w = (inl e, w') ->
           (name = "get_client_info" /\ wrapped e)
           \/ (name = "get_statement" /\ conforms arguments = true /\ wrapped e)
           \/ (name = "get_statement" /\ conforms arguments = false
               /\ (exists issues, e = ZodError issues) /\ w' = w)
           \/ (name <> "get_client_info" /\ name <> "get_statement"
               /\ e = JsError "Error" ("Unknown tool: " ++ name) /\ w' = w)).
Proof.
  intros name arguments w w'. split.
  - intros result. apply returning_call_is_complete.
  - intros e. apply failing_call_classified.
Qed.

(** C9. The handler routes on the tool name alone: [get_client_info] runs
    [getClientInfo], [get_statement] runs [getStatement] on the arguments,
    and every other name throws an [Error] whose message,
    [Unknown tool: <name>], names what was asked for, with the world
    untouched: no request is made. *)
Theorem unknown_tool_is_rejected_without_request :
  forall (name : string) (arguments : JsValue) (w : World),
    name <> "get_client_info" ->
    name <> "get_statement" ->
    CallTool name arguments w = (inl (JsError "Error" ("Unknown tool: " ++ name)), w)
    /\ contains name ("Unknown tool: " ++ name)
    /\ requests (snd (CallTool name arguments w)) = requests w
    /\ CallTool "get_client_info" arguments = getClientInfo
    /\ CallTool "get_statement" arguments = getStatement arguments.
Proof.
  intros name arguments w Hn1 Hn2.
  assert (Hrun : CallTool name arguments w
                 = (inl (JsError "Error" ("Unknown tool: " ++ name)), w)).
  { unfold CallTool.
    destruct (String.eqb_spec name "get_client_info"); [contradiction |].
    destruct (String.eqb_spec name "get_statement"); [contradiction |].
    reflexivity. }
  rewrite Hrun. repeat split.
  apply contains_app_r, contains_refl.
Qed.

(** ** Further properties of the handlers *)

Lemma CallTool_requests (name : string) (arguments : JsValue) (w : World) :
  snd (CallTool name arguments w)
  = {| MONOBANK_API_TOKEN := MONOBANK_API_TOKEN w;
       clock := clock w;
       client_info_endpoint := client_info_endpoint w;
       statement_endpoint := statement_endpoint w;
       requests := (requests w ++ requests_of_call name arguments w)%list |}.
Proof.
  unfold CallTool, requests_of_call.
  destruct (String.eqb name "get_client_info").
  - rewrite getClientInfo_run. reflexivity.
  - destruct (String.eqb name "get_statement").
    + destruct (GetStatementArgsSchema arguments) as [issues | parsed] eqn:Hparse.
      * rewrite (getStatement_invalid _ _ _ Hparse). cbn [snd].
        rewrite app_nil_r. destruct w; reflexivity.
      * rewrite (getStatement_run _ _ _ Hparse). reflexivity.
    + cbn [throw snd]. rewrite app_nil_r. destruct w; reflexivity.
Qed.

(** X1. A tool call leaves the token, the clock and the upstream as they
    were and only appends to the request log: [get_client_info] appends its
    one request whatever the outcome, [get_statement] appends its one
    request when the arguments validate and nothing when they do not, any
    other name appends nothing. No call makes more than one request, and
    none is skipped because the log already holds it. *)
Theorem tool_call_appends_at_most_one_request :
  forall (name : string) (arguments : JsValue) (w : World),
    requests (snd (CallTool name arguments w))
    = (requests w ++ requests_of_call name arguments w)%list
    /\ (length (requests_of_call name arguments w) <= 1)%nat
    /\ same_environment w (snd (CallTool name arguments w)).
Proof.
  intros name arguments w. rewrite CallTool_requests. cbn [requests].
  split; [reflexivity |]. split.
  - unfold requests_of_call.
    destruct (String.eqb name "get_client_info"); [cbn; lia |].
    destruct (String.eqb name "get_statement"); [| cbn; lia].
    destruct (GetStatementArgsSchema arguments); cbn; lia.
  - repeat split.
Qed.

(** X2. Every request a tool call makes carries exactly one header,
    [X-Token]; its value is the environment's token when that is set and
    not empty, and [X_TOKEN_PLACEHOLDER] otherwise. The value is never the
    empty string, and a missing token does not stop the request. *)
Theorem requests_carry_token_or_placeholder :
  forall (name : string) (arguments : JsValue) (w : World) (request : Request),
    In request (requests (snd (CallTool name arguments w))) ->
    In request (requests w)
    \/ exists value : string,
         headers request = [("X-Token", value)]
         /\ value <> EmptyString
         /\ (forall token, MONOBANK_API_TOKEN w = Some token ->
                           token <> EmptyString -> value = token)
         /\ (MONOBANK_API_TOKEN w = None \/ MONOBANK_API_TOKEN w = Some EmptyString ->
             value = "X_TOKEN_PLACEHOLDER").
Proof.
  intros name arguments w request. rewrite CallTool_requests. cbn [requests].
  intros Hin. apply in_app_or in Hin. destruct Hin as [Hold | Hnew]; [left; exact Hold |].
  right. exists (or_string (MONOBANK_API_TOKEN w) "X_TOKEN_PLACEHOLDER").
  split.
  - unfold requests_of_call in Hnew.
    destruct (String.eqb name "get_client_info").
    + destruct Hnew as [<- | []]. reflexivity.
    + destruct (String.eqb name "get_statement"); [| destruct Hnew].
      destruct (GetStatementArgsSchema arguments); [destruct Hnew |].
      destruct Hnew as [<- | []]. reflexivity.
  - destruct (MONOBANK_API_TOKEN w) as [[| c token] |]; cbn [or_string].
    + repeat split; try discriminate. intros token [= <-] H. contradiction.
    + repeat split; try discriminate.
      * intros token' [= <-] _. reflexivity.
      * intros [H | H]; discriminate.
    + repeat split; try discriminate.
Qed.

(** X3. [get_client_info] returns exactly when the upstream answers its
    request with a success status and a body that parses; the result is one
    content item of type [text] holding [JSON.stringify(data, null, 2)] of
    the parsed body, which is not inspected or changed. *)
Theorem get_client_info_returns_the_upstream_body :
  forall (w w' : World) (result : ToolResult),
    getClientInfo w = (inr result, w')
    <-> exists (response : Response JsValue) (data : JsValue),
          client_info_endpoint w (client_info_request w) = inr response
          /\ ok response = true
          /\ body_json response = inr data
          /\ result = {| content := [ {| type := "text";
                                         text := JSON_stringify data |} ] |}
          /\ w' = record_request (client_info_request w) w.
Proof.
  intros w w' result. rewrite getClientInfo_run. unfold after_fetch, finish_client_info.
  split.
  - intros [= Hres <-].
    destruct (client_info_endpoint w _) as [e | response]; [discriminate |].
    destruct (ok response) eqn:Hok.
    + destruct (body_json response) as [e | data] eqn:Hjson; [discriminate |].
      injection Hres as <-. exists response, data. auto.
    + destruct (body_text response); discriminate.
  - intros (response & data & -> & -> & -> & -> & ->). reflexivity.
Qed.

Lemma Array_map_throws {A B : Type} (f : A -> Completion B) (l : list A) (e : Thrown) :
  (forall a e', f a = inl e' -> e' = e) ->
  Exists (fun a => exists e', f a = inl e') l ->
  Array_map f l = inl e.
Proof.
  intros Hsame. induction 1 as [a l (e' & Ha) | a l _ IH]; cbn [Array_map].
  - rewrite Ha, (Hsame _ _ Ha). reflexivity.
  - destruct (f a) as [e' | b] eqn:Hfa.
    + rewrite (Hsame _ _ Hfa). reflexivity.
    + rewrite IH. reflexivity.
Qed.

Lemma processItem_throws (item : StatementItem.t) (e : Thrown) :
  processItem item = inl e -> e = JsError "RangeError" "Invalid time value".
Proof.
  unfold processItem.
  destruct (Date.new _) as [tv |]; cbn [Date.toISOString]; [discriminate |].
  now intros [= <-].
Qed.

(** X4. One raw item whose time no Date can hold fails the whole
    [get_statement] call, although the upstream answered with success: the
    call throws [Failed to connect to Monobank API: Invalid time value],
    the items that could be processed are not returned, and the request has
    been made. *)
Theorem one_invalid_time_fails_the_statement :
  forall (args : JsValue) (parsed : GetStatementArgs) (w : World)
         (response : Response (list StatementItem.t)) (data : list StatementItem.t),
    GetStatementArgsSchema args = inr parsed ->
    statement_endpoint w (statement_request w parsed) = inr response ->
    ok response = true ->
    body_json response = inr data ->
    Exists (fun item => Date.new (StatementItem.time item * 1000)%float = None) data ->
    getStatement args w
    = (inl (JsError "Error" "Failed to connect to Monobank API: Invalid time value"),
       record_request (statement_request w parsed) w).
Proof.
  intros args parsed w response data Hparse Hfetch Hok Hjson Hbad.
  rewrite (getStatement_run _ _ _ Hparse).
  unfold after_fetch, finish_statement. rewrite Hfetch, Hok, Hjson.
  rewrite (Array_map_throws processItem data
             (JsError "RangeError" "Invalid time value")).
  - reflexivity.
  - intros item e. apply processItem_throws.
  - eapply Exists_impl; [| exact Hbad].
    intros item Hnew. unfold processItem. rewrite Hnew. cbn. eauto.
Qed.

(** X5. A failure on the way to the parsed body keeps its cause: when
    [fetch] rejects with [cause], when the body of a success answer does not
    parse and [response.json()] rejects with [cause], or when the body of a
    non-success answer cannot be read and [response.text()] rejects with
    [cause], either tool throws a plain [Error] whose message is the prefix
    followed by the message of [cause] (or by [String(cause)] when it is no
    [Error]). The class of the cause is not kept, and in the third case
    neither is the status. *)
Theorem failures_keep_the_message_of_their_cause :
  forall (w : World) (cause : Thrown),
    (gives_no_body (client_info_endpoint w (client_info_request w)) cause ->
     fst (getClientInfo w) = inl (JsError "Error" (rethrown_message cause)))
    /\ (forall (args : JsValue) (parsed : GetStatementArgs),
           GetStatementArgsSchema args = inr parsed ->
           gives_no_body (statement_endpoint w (statement_request w parsed)) cause ->
           fst (getStatement args w) = inl (JsError "Error" (rethrown_message cause)))
    /\ (forall name message,
           rethrown_message (JsError name message)
           = "Failed to connect to Monobank API: " ++ message)
    /\ (forall text,
           rethrown_message (NonError text)
           = "Failed to connect to Monobank API: " ++ text).
Proof.
  intros w cause. split; [| split; [| split; reflexivity]].
  - intros Hcase. rewrite getClientInfo_run. cbn [fst]. unfold after_fetch.
    destruct Hcase as [-> | [(response & -> & Hok & Hbody) | (response & -> & Hok & Hbody)]];
      [reflexivity | |]; rewrite Hok, Hbody; reflexivity.
  - intros args parsed Hparse Hcase.
    rewrite (getStatement_run _ _ _ Hparse). cbn [fst]. unfold after_fetch.
    destruct Hcase as [-> | [(response & -> & Hok & Hbody) | (response & -> & Hok & Hbody)]];
      [reflexivity | |]; rewrite Hok, Hbody; reflexivity.
Qed.

(** ** The serialized payload *)

Lemma serialize_array (stepback : string) (items : list JsValue) :
  JSON.serialize toString_fractional stepback (JsArray items)
  = Some (JSON.wrap "[" "]" stepback
            (map (fun v => match JSON.serialize toString_fractional
                                   (stepback ++ JSON.gap) v with
                           | Some s => s
                           | None => "null"
                           end) items)).
Proof. reflexivity. Qed.

(** X6. What [get_statement] returns is one content item of type [text]
    whose text is always defined, and that text is [[]] exactly when the
    upstream sequence is empty. *)
Theorem statement_text_is_defined_and_empty_for_no_items :
  forall (args : JsValue) (w w' : World) (result : ToolResult),
    getStatement args w = (inr result, w') ->
    exists (data : list StatementItem.t) (items : list Obj.t) (s : string),
      emits args w data items
      /\ content result = [ {| type := "text"; text := Some s |} ]
      /\ (s = "[]" <-> data = []).
Proof.
  intros args w w' result Hrun.
  destruct (returns_emits _ _ _ _ Hrun) as (data & items & Hemits & ->).
  pose proof Hemits as (parsed & response & _ & _ & _ & _ & Hmap).
  apply Array_map_Forall2 in Hmap.
  unfold payload, text_result, JSON_stringify, JSON.stringify.
  rewrite serialize_array. cbn [content].
  eexists data, items, _. split; [exact Hemits |]. split; [reflexivity |].
  destruct Hmap as [| item p data items _ _]; cbn [map JSON.wrap].
  - split; reflexivity.
  - split; [| discriminate].
    destruct (map _ (map JsObject items)); cbn; discriminate.
Qed.

Lemma member_lines_of_object (stepback : string) (o : Obj.t) :
  JSON.serialize toString_fractional stepback (JsObject o)
  = Some (JSON.wrap "{" "}" stepback
            (flat_map
               (fun p => match JSON.serialize toString_fractional
                                 (stepback ++ JSON.gap) (snd p) with
                         | Some s => [JSON.quote (fst p) ++ ": " ++ s]
                         | None => []
                         end) o)).
Proof.
  cbn [JSON.serialize]. do 2 f_equal.
  induction o as [| [k v] o IH]; cbn [flat_map fst snd]; [reflexivity |].
  destruct (JSON.serialize toString_fractional (stepback ++ JSON.gap) v);
    cbn [app]; rewrite IH; reflexivity.
Qed.

(** X7. In the JSON text a processed item is an object with one member per
    emitted key, in the order of the object literal: the eleven keys from
    [time] to [balance], then [comment], [receiptId] and [counterName] each
    only if the raw item has it. An optional field the raw item lacks is
    left out of the text; it is not written as [null]. *)
Theorem absent_optional_fields_are_left_out_of_the_text :
  forall (item : StatementItem.t) (p : Obj.t) (stepback : string),
    processItem item = inr p ->
    JSON.serialize toString_fractional stepback (JsObject p)
    = Some (JSON.wrap "{" "}" stepback
              (map (member_line (stepback ++ JSON.gap) p) (emitted_keys item)))
    /\ (forall key, In key (Obj.keys p) ->
                    (In key (emitted_keys item) <-> Obj.get key p <> JsUndefined)).
Proof.
  intros item p stepback Hp.
  destruct (processItem_inv _ _ Hp) as (time & _ & ->).
  rewrite member_lines_of_object. unfold emitted_keys, member_line.
  destruct (StatementItem.comment item) as [comment |];
    destruct (StatementItem.receiptId item) as [receiptId |];
    destruct (StatementItem.counterName item) as [counterName |];
    (split; [reflexivity |]);
    intros key Hin; cbn in Hin;
    repeat (destruct Hin as [<- | Hin];
            [cbn; split; intros Hk;
             [first [discriminate | exfalso; intuition discriminate]
             | first [solve [repeat (first [left; reflexivity | right])]
                     | exfalso; apply Hk; reflexivity]] |]);
    destruct Hin.
Qed.

Lemma wrapped_is_not_unknown_tool (e : Thrown) (name : string) :
  wrapped e -> e <> JsError "Error" ("Unknown tool: " ++ name).
Proof. intros (message & ->). discriminate. Qed.

(** X8. The catalog and the handler agree on the tools: a call is turned
    away as [Unknown tool: <name>] exactly when [name] is not the name of
    an advertised tool. Each advertised tool is dispatched, whatever its
    outcome, and nothing else is. *)
Theorem advertised_tools_are_exactly_the_callable_ones :
  forall (name : string) (arguments : JsValue) (w : World),
    In name (map tool_name tools)
    <-> fst (CallTool name arguments w)
        <> inl (JsError "Error" ("Unknown tool: " ++ name)).
Proof.
  intros name arguments w. unfold CallTool. cbn [map tools tool_name In].
  destruct (String.eqb_spec name "get_client_info") as [-> | Hn1].
  - split; [| auto]. intros _. rewrite getClientInfo_run. cbn [fst].
    destruct (after_fetch _ _) as [e |] eqn:Hrun; [| discriminate].
    apply after_fetch_failure_wrapped in Hrun.
    intros [= He]. revert He. apply wrapped_is_not_unknown_tool. exact Hrun.
  - destruct (String.eqb_spec name "get_statement") as [-> | Hn2].
    + split; [| auto]. intros _.
      destruct (GetStatementArgsSchema arguments) as [issues | parsed] eqn:Hparse.
      * rewrite (getStatement_invalid _ _ _ Hparse). discriminate.
      * rewrite (getStatement_run _ _ _ Hparse). cbn [fst].
        destruct (after_fetch _ _) as [e |] eqn:Hrun; [| discriminate].
        apply after_fetch_failure_wrapped in Hrun.
        intros [= He]. revert He. apply wrapped_is_not_unknown_tool. exact Hrun.
    + cbn [throw fst]. split.
      * intros [H | [H | []]]; congruence.
      * intros H. contradiction H. reflexivity.
Qed.

Lemma declared_type_is_present (v : JsValue) (declared : string) :
  declared = "string" \/ declared = "number" ->
  negb (is_undefined v) && (is_undefined v || String.eqb (json_type v) declared)
  = String.eqb (json_type v) declared.
Proof.
  intros [-> | ->]; destruct v as [| | b | x | s | l | o]; try reflexivity;
    unfold json_type; cbn; destruct (PrimFloat.is_nan x); reflexivity.
Qed.

(** X9. What the catalog advertises for [get_statement] is what the
    handler enforces: arguments satisfy the advertised [inputSchema] (an
    object with the three required properties, each of its declared JSON
    type) exactly when [GetStatementArgsSchema] accepts them. *)
Theorem advertised_schema_is_the_enforced_schema :
  forall (tool : Tool) (arguments : JsValue),
    In tool tools ->
    tool_name tool = "get_statement" ->
    (satisfies_inputSchema tool arguments = true
     <-> exists parsed, GetStatementArgsSchema arguments = inr parsed).
Proof.
  intros tool arguments [<- | [<- | []]] Hname; [discriminate Hname |].
  clear Hname.
  pose proof (schema_conforms arguments) as Hc.
  match goal with
  | |- satisfies_inputSchema ?t _ = true <-> _ =>
      assert (Hsame : satisfies_inputSchema t arguments = conforms arguments)
  end.
  { destruct arguments as [| | b | x | s | l | data]; try reflexivity.
    pose proof (declared_type_is_present (Obj.get "account_id" data) "string"
                  ltac:(auto)) as Ha.
    pose proof (declared_type_is_present (Obj.get "from_timestamp" data) "number"
                  ltac:(auto)) as Hf.
    pose proof (declared_type_is_present (Obj.get "to_timestamp" data) "number"
                  ltac:(auto)) as Ht.
    unfold satisfies_inputSchema, conforms, declared_fields, field_conforms,
      Zod.ParsedType_eqb, json_type in *.
    cbn [forallb tool_required tool_properties fst snd property_type
         Zod.ParsedType_name].
    rewrite <- Ha, <- Hf, <- Ht.
    destruct (is_undefined (Obj.get "account_id" data));
      destruct (is_undefined (Obj.get "from_timestamp" data));
      destruct (is_undefined (Obj.get "to_timestamp" data));
      cbn [negb andb orb];
      repeat match goal with
             | |- context [String.eqb ?a ?b] => destruct (String.eqb a b)
             end; reflexivity. }
  rewrite Hsame.
  destruct (GetStatementArgsSchema arguments) as [issues | parsed].
  - rewrite Hc. split; [discriminate | intros (parsed & H); discriminate].
  - destruct Hc as [-> _]. split; eauto.
Qed.

(** ** The shape of the time string *)

Lemma pad_onto_app (k : nat) (n : Z) (a b : string) :
  Date.pad_onto k n (a ++ b) = Date.pad_onto k n a ++ b.
Proof.
  revert n a. induction k as [| k IH]; intros n a; cbn [Date.pad_onto]; [reflexivity |].
  rewrite <- IH. reflexivity.
Qed.

Lemma length_pad_onto (k : nat) (n : Z) (a : string) :
  String.length (Date.pad_onto k n a) = (k + String.length a)%nat.
Proof.
  revert n a. induction k as [| k IH]; intros n a; cbn [Date.pad_onto]; [reflexivity |].
  rewrite IH. cbn [String.length]. lia.
Qed.

Lemma YearFromTime_four_digits (t : Z) :
  -62167219200000 <= t < 253402300800000 ->
  0 <= Date.YearFromTime t <= 9999.
Proof.
  intros Ht. pose proof (YearFromTime_spec t) as H.
  set (y := Date.YearFromTime t) in *. clearbody y.
  unfold Date.DayFromYear, Date.Day, Date.msPerDay in *. euclid.
Qed.

(** X10. For a raw time that is a whole number of Unix seconds in the
    years 0000 to 9999, the item is produced and its [time] is nineteen
    characters of date and time followed by [.000Z]: twenty-four characters,
    with no expanded year and no fraction of a second. *)
Theorem whole_second_times_have_the_short_form :
  forall (item : StatementItem.t) (s : Z),
    Number.to_integer (StatementItem.time item) = Some s ->
    -62167219200 <= s < 253402300800 ->
    exists (p : Obj.t) (date_time : string),
      processItem item = inr p
      /\ Obj.lookup "time" p = Some (JsString (date_time ++ ".000Z"))
      /\ String.length date_time = 19%nat.
Proof.
  intros item s Hint Hs.
  assert (Hclip : Date.TimeClip (StatementItem.time item * 1000)%float = Some (1000 * s))
    by (apply whole_seconds_in_milliseconds; [exact Hint | lia]).
  pose proof (YearFromTime_four_digits (1000 * s) ltac:(lia)) as Hy.
  unfold processItem, Date.new. rewrite Hclip. cbn [Date.toISOString].
  eexists.
  exists (Date.pad_onto 4 (Date.YearFromTime (1000 * s))
            (String "-" (Date.pad_onto 2 (Date.MonthFromTime (1000 * s) + 1)
            (String "-" (Date.pad_onto 2 (Date.DateFromTime (1000 * s))
            (String "T" (Date.pad_onto 2 (Date.HourFromTime (1000 * s))
            (String ":" (Date.pad_onto 2 (Date.MinFromTime (1000 * s))
            (String ":" (Date.pad_onto 2 (Date.SecFromTime (1000 * s))
               EmptyString))))))))))).
  split; [reflexivity |]. split.
  - cbn [Obj.lookup String.eqb Ascii.eqb Bool.eqb]. do 2 f_equal.
    unfold Date.format, Date.format_year.
    destruct (Z.leb_spec 0 (Date.YearFromTime (1000 * s))); [| lia].
    destruct (Z.leb_spec (Date.YearFromTime (1000 * s)) 9999); [| lia].
    cbn [andb].
    replace (Date.msFromTime (1000 * s)) with 0
      by (unfold Date.msFromTime, Date.msPerSecond; euclid).
    change (Date.pad_onto 3 0 (String "Z" EmptyString)) with ("000Z").
    repeat (rewrite <- pad_onto_app; cbn [append]).
    reflexivity.
  - rewrite !length_pad_onto; cbn [String.length];
      repeat (rewrite !length_pad_onto; cbn [String.length]).
    reflexivity.
Qed.

(** X11. The time string determines the instant: two processed items with
    the same [time] come from raw times that denote the same millisecond.
    The conversion to text loses nothing of the time value. *)
Theorem equal_time_strings_come_from_equal_instants :
  forall (item item' : StatementItem.t) (p p' : Obj.t) (time : JsValue),
    processItem item = inr p ->
    processItem item' = inr p' ->
    Obj.lookup "time" p = Some time ->
    Obj.lookup "time" p' = Some time ->
    Date.new (StatementItem.time item * 1000)%float
    = Date.new (StatementItem.time item' * 1000)%float.
Proof.
  intros item item' p p' time Hp Hp' Htime Htime'.
  destruct (processItem_inv _ _ Hp) as (s & Hs & ->).
  destruct (processItem_inv _ _ Hp') as (s' & Hs' & ->).
  cbn in Htime, Htime'. rewrite <- Htime in Htime'. injection Htime' as ->.
  destruct (Date.new (StatementItem.time item * 1000)) as [tv |] eqn:Hnew;
    [| discriminate].
  destruct (Date.new (StatementItem.time item' * 1000)) as [tv' |] eqn:Hnew';
    [| discriminate].
  cbn in Hs, Hs'. injection Hs as Hs. injection Hs' as Hs'.
  pose proof (parse_format tv (TimeClip_range _ _ Hnew)) as Hread.
  pose proof (parse_format tv' (TimeClip_range _ _ Hnew')) as Hread'.
  rewrite Hs in Hread. rewrite Hs' in Hread'. congruence.
Qed.

End Server.

(** * The properties on the sample data *)

Lemma get_statement_divides_money_by_100_sample :
  exists data items,
    emits sample_toString_fractional sample_args sample_world data items
    /\ payload sample_toString_fractional [sample_processed]
       = payload sample_toString_fractional items
    /\ Forall2 money_divided_by_100 data items.
Proof.
  eapply (get_statement_divides_money_by_100 sample_toString_fractional
            sample_args sample_world).
  reflexivity.
Defined.

Lemma get_statement_preserves_length_and_order_sample :
  exists items : list Obj.t,
    getStatement sample_toString_fractional sample_args sample_world_of_three
    = (inr (payload sample_toString_fractional items),
       record_request
         (statement_request sample_toString_fractional sample_world_of_three
            sample_parsed)
         sample_world_of_three)
    /\ same_sequence sample_statement_of_three items
    /\ items = [sample_processed; sample_processed_same_second; sample_processed].
Proof.
  destruct (get_statement_preserves_length_and_order sample_toString_fractional
              sample_args sample_parsed sample_world_of_three
              sample_response_of_three sample_statement_of_three
              eq_refl eq_refl eq_refl eq_refl) as [Hreturns _].
  destruct Hreturns as (items & Hrun & Hsame).
  - repeat constructor; eexists; reflexivity.
  - exists items. split; [exact Hrun |]. split; [exact Hsame |].
    apply same_sequence_determines_items in Hsame.
    injection Hsame as <-. reflexivity.
Defined.

Lemma processed_time_denotes_raw_instant_sample :
  exists p : Obj.t,
    processItem sample_item = inr p
    /\ Obj.lookup "time" p = Some (JsString "2023-11-14T22:13:20.000Z")
    /\ DateString.parse "2023-11-14T22:13:20.000Z" = Some 1700000000000.
Proof.
  destruct (processed_time_denotes_raw_instant sample_item) as (_ & Hwhole & _).
  apply (Hwhole 1700000000); [reflexivity | vm_compute; discriminate].
Defined.

Lemma get_statement_drops_and_copies_fields_sample :
  exists data items,
    emits sample_toString_fractional sample_args sample_world data items
    /\ payload sample_toString_fractional [sample_processed]
       = payload sample_toString_fractional items
    /\ Forall2 (fun item p =>
                  (forall k, In k dropped_keys -> Obj.lookup k p = None)
                  /\ (forall k, In k dropped_keys -> ~ In k (Obj.keys p))
                  /\ copied_through item p) data items.
Proof.
  eapply (get_statement_drops_and_copies_fields sample_toString_fractional
            sample_args sample_world).
  reflexivity.
Defined.

Lemma get_statement_rejects_missing_from_timestamp :
  exists issues : list Zod.Issue,
    getStatement sample_toString_fractional sample_args_missing_from sample_world
    = (inl (ZodError issues), sample_world)
    /\ requests (snd (getStatement sample_toString_fractional
                        sample_args_missing_from sample_world))
       = []
    /\ issues <> []
    /\ map Zod.path issues = [["from_timestamp"]].
Proof.
  exact (get_statement_rejects_invalid_arguments sample_toString_fractional
           sample_args_missing_from sample_world eq_refl).
Defined.

Lemma get_statement_open_end_requests_until_now :
  requests (snd (getStatement sample_toString_fractional
                   sample_args_open_end sample_world))
  = [ {| url := "https://api.monobank.ua/personal/statement/0/1700000000/1700003600";
         headers := [("X-Token", "token")] |} ].
Proof.
  exact (proj1 (get_statement_defaults_period_end_to_now sample_toString_fractional
                  sample_args_open_end sample_parsed_open_end sample_world eq_refl)).
Defined.

Lemma get_client_info_unauthorized :
  exists message : string,
    fst (getClientInfo sample_toString_fractional sample_world_401)
    = inl (JsError "Error" message)
    /\ message
       = "Failed to connect to Monobank API: HTTP error! status: 401, body: invalid token"
    /\ contains "401" message
    /\ contains "invalid token" message.
Proof.
  exact (proj1 (non_success_status_fails_with_status_and_body
                  sample_toString_fractional sample_world_401 "invalid token")
           (mkResponse false 401 (inr "invalid token")
              (inl (JsError "SyntaxError" "Unexpected token i in JSON at position 0")))
           eq_refl eq_refl eq_refl).
Defined.

Lemma transport_failure_is_wrapped :
  complete_success sample_toString_fractional "get_statement" sample_args
    sample_world
    (payload sample_toString_fractional [sample_processed])
    (record_request
       (statement_request sample_toString_fractional sample_world sample_parsed)
       sample_world)
  /\ (("get_client_info" = "get_client_info"
       /\ wrapped (JsError "Error" "Failed to connect to Monobank API: fetch failed"))
      \/ ("get_client_info" = "get_statement" /\ conforms JsUndefined = true
          /\ wrapped (JsError "Error" "Failed to connect to Monobank API: fetch failed"))
      \/ ("get_client_info" = "get_statement" /\ conforms JsUndefined = false
          /\ (exists issues,
                 JsError "Error" "Failed to connect to Monobank API: fetch failed"
                 = ZodError issues)
          /\ record_request (client_info_request sample_world) sample_world
             = sample_world)
      \/ ("get_client_info" <> "get_client_info"
          /\ "get_client_info" <> "get_statement"
          /\ JsError "Error" "Failed to connect to Monobank API: fetch failed"
             = JsError "Error" ("Unknown tool: " ++ "get_client_info")
          /\ record_request (client_info_request sample_world) sample_world
             = sample_world)).
Proof.
  split.
  - exact (proj1 (proj1 (no_failure_is_swallowed_and_try_failures_are_wrapped
                           sample_toString_fractional "get_statement" sample_args
                           sample_world
                           (record_request
                              (statement_request sample_toString_fractional
                                 sample_world sample_parsed)
                              sample_world))
                    (payload sample_toString_fractional [sample_processed]))
             eq_refl).
  - exact (proj2 (no_failure_is_swallowed_and_try_failures_are_wrapped
                    sample_toString_fractional "get_client_info" JsUndefined
                    sample_world
                    (record_request (client_info_request sample_world) sample_world))
             (JsError "Error" "Failed to connect to Monobank API: fetch failed")
             eq_refl).
Defined.

(** The claim that every failure carries the wrapper fails on an unknown
    tool name and on arguments that do not validate. *)
Lemma unknown_tool_and_validation_failures_are_not_wrapped :
  CallTool sample_toString_fractional "get_balance" JsUndefined sample_world
  = (inl (JsError "Error" "Unknown tool: get_balance"), sample_world)
  /\ ~ wrapped (JsError "Error" "Unknown tool: get_balance")
  /\ CallTool sample_toString_fractional "get_statement" sample_args_missing_from
       sample_world
     = (inl (ZodError [Zod.invalid_type ["from_timestamp"] Zod.TNumber Zod.TUndefined]),
        sample_world)
  /\ ~ wrapped (ZodError [Zod.invalid_type ["from_timestamp"] Zod.TNumber Zod.TUndefined]).
Proof.
  repeat split.
  - intros (message & H). discriminate H.
  - intros (message & H). discriminate H.
Qed.

Lemma unknown_tool_get_balance :
  CallTool sample_toString_fractional "get_balance" JsUndefined sample_world
  = (inl (JsError "Error" ("Unknown tool: " ++ "get_balance")), sample_world)
  /\ contains "get_balance" ("Unknown tool: " ++ "get_balance")
  /\ requests (snd (CallTool sample_toString_fractional "get_balance" JsUndefined
                      sample_world))
     = requests sample_world
  /\ CallTool sample_toString_fractional "get_client_info" JsUndefined
     = getClientInfo sample_toString_fractional
  /\ CallTool sample_toString_fractional "get_statement" JsUndefined
     = getStatement sample_toString_fractional JsUndefined.
Proof.
  apply (unknown_tool_is_rejected_without_request sample_toString_fractional
           "get_balance" JsUndefined sample_world); discriminate.
Defined.

Lemma get_statement_ignores_unknown_keys_sample :
  exists parsed : GetStatementArgs,
    GetStatementArgsSchema (JsObject sample_data_extra_keys) = inr parsed
    /\ Obj.get "account_id" sample_data_extra_keys = JsString (account_id parsed)
    /\ Obj.get "from_timestamp" sample_data_extra_keys
       = JsNumber (from_timestamp parsed)
    /\ Obj.get "to_timestamp" sample_data_extra_keys = JsNumber (to_timestamp parsed)
    /\ forall data' : Obj.t,
         (forall key, In key (map fst declared_fields) ->
                      Obj.get key data' = Obj.get key sample_data_extra_keys) ->
         getStatement sample_toString_fractional (JsObject data') sample_world
         = getStatement sample_toString_fractional (JsObject sample_data_extra_keys)
             sample_world.
Proof.
  exact (get_statement_ignores_unknown_keys sample_toString_fractional
           sample_data_extra_keys sample_world eq_refl).
Defined.

(** * The further properties on the sample data *)

Lemma placeholder_is_sent_without_token :
  In (client_info_request sample_world_401) (requests sample_world_401)
  \/ exists value : string,
       headers (client_info_request sample_world_401) = [("X-Token", value)]
       /\ value <> EmptyString
       /\ (forall token, MONOBANK_API_TOKEN sample_world_401 = Some token ->
                         token <> EmptyString -> value = token)
       /\ (MONOBANK_API_TOKEN sample_world_401 = None
           \/ MONOBANK_API_TOKEN sample_world_401 = Some EmptyString ->
           value = "X_TOKEN_PLACEHOLDER").
Proof.
  apply (requests_carry_token_or_placeholder sample_toString_fractional
           "get_client_info" JsUndefined sample_world_401).
  left. reflexivity.
Defined.

Lemma sample_profile_is_returned_as_sent :
  exists (response : Response JsValue) (data : JsValue),
    client_info_endpoint sample_world_profile (client_info_request sample_world_profile)
    = inr response
    /\ ok response = true
    /\ body_json response = inr data
    /\ {| content := [ {| type := "text";
                          text := JSON_stringify sample_toString_fractional
                                    sample_profile |} ] |}
       = {| content := [ {| type := "text";
                            text := JSON_stringify sample_toString_fractional data |} ] |}
    /\ record_request (client_info_request sample_world_profile) sample_world_profile
       = record_request (client_info_request sample_world_profile) sample_world_profile.
Proof.
  apply (proj1 (get_client_info_returns_the_upstream_body sample_toString_fractional
                  sample_world_profile _ _)).
  reflexivity.
Defined.

Lemma rejected_fetch_keeps_its_message :
  fst (getClientInfo sample_toString_fractional sample_world)
  = inl (JsError "Error" "Failed to connect to Monobank API: fetch failed").
Proof.
  apply (proj1 (failures_keep_the_message_of_their_cause sample_toString_fractional
                  sample_world sample_transport_failure)).
  left. reflexivity.
Defined.

Lemma far_future_item_fails_the_statement :
  getStatement sample_toString_fractional sample_args sample_world_bad_time
  = (inl (JsError "Error" "Failed to connect to Monobank API: Invalid time value"),
     record_request
       (statement_request sample_toString_fractional sample_world_bad_time sample_parsed)
       sample_world_bad_time).
Proof.
  apply (one_invalid_time_fails_the_statement sample_toString_fractional
           sample_args sample_parsed sample_world_bad_time
           sample_response_bad_time [sample_item; sample_item_bad_time]);
    try reflexivity.
  apply Exists_cons_tl, Exists_cons_hd. reflexivity.
Defined.

Lemma sample_statement_text_is_defined :
  exists (data : list StatementItem.t) (items : list Obj.t) (s : string),
    emits sample_toString_fractional sample_args sample_world data items
    /\ content (payload sample_toString_fractional [sample_processed])
       = [ {| type := "text"; text := Some s |} ]
    /\ (s = "[]" <-> data = []).
Proof.
  eapply (statement_text_is_defined_and_empty_for_no_items
            sample_toString_fractional sample_args sample_world).
  reflexivity.
Defined.

Lemma sample_item_leaves_out_receiptId_and_counterName :
  JSON.serialize sample_toString_fractional EmptyString (JsObject sample_processed)
  = Some (JSON.wrap "{" "}" EmptyString
            (map (member_line sample_toString_fractional
                    (EmptyString ++ JSON.gap) sample_processed)
               ["time"; "description"; "mcc"; "originalMcc"; "hold"; "amount";
                "operationAmount"; "currencyCode"; "commissionRate";
                "cashbackAmount"; "balance"; "comment"]))
  /\ (forall key, In key (Obj.keys sample_processed) ->
                  (In key (emitted_keys sample_item)
                   <-> Obj.get key sample_processed <> JsUndefined)).
Proof.
  exact (absent_optional_fields_are_left_out_of_the_text sample_toString_fractional
           sample_item sample_processed EmptyString eq_refl).
Defined.

Lemma sample_args_satisfy_the_advertised_schema :
  exists tool : Tool,
    nth_error tools 1 = Some tool
    /\ (satisfies_inputSchema tool sample_args = true
        <-> exists parsed, GetStatementArgsSchema sample_args = inr parsed).
Proof.
  eexists. split; [reflexivity |].
  apply advertised_schema_is_the_enforced_schema; [right; left |]; reflexivity.
Defined.

Lemma sample_time_has_the_short_form :
  exists (p : Obj.t) (date_time : string),
    processItem sample_item = inr p
    /\ Obj.lookup "time" p = Some (JsString (date_time ++ ".000Z"))
    /\ String.length date_time = 19%nat.
Proof.
  apply (whole_second_times_have_the_short_form sample_item 1700000000);
    [reflexivity | split; [discriminate | reflexivity]].
Defined.

Lemma same_second_items_share_the_instant :
  Date.new (StatementItem.time sample_item * 1000)%float
  = Date.new (StatementItem.time sample_item_same_second * 1000)%float.
Proof.
  destruct (processItem sample_item) as [e | p] eqn:Hp; [discriminate Hp |].
  destruct (processItem sample_item_same_second) as [e | p'] eqn:Hp';
    [discriminate Hp' |].
  apply (equal_time_strings_come_from_equal_instants sample_item
           sample_item_same_second p p' (JsString "2023-11-14T22:13:20.000Z") Hp Hp').
  - injection Hp as <-. reflexivity.
  - injection Hp' as <-. reflexivity.
Defined.

(** * The catalog and the schema agree *)

Example catalog_names : map tool_name tools = ["get_client_info"; "get_statement"].
Proof. reflexivity. Qed.

Example catalog_declares_statement_arguments :
  exists tool : Tool,
    nth_error tools 1 = Some tool
    /\ tool_required tool = map fst declared_fields
    /\ map (fun p => (fst p, property_type (snd p))) (tool_properties tool)
       = map (fun f => (fst f, Zod.ParsedType_name (snd f))) declared_fields.
Proof. eexists. repeat split. Qed.

(** * Sanity checks of the built-ins against known JavaScript results *)

Example floor_now : Number.floor (1700000000123 / 1000)%float = 1700000000%float.
Proof. reflexivity. Qed.

Example floor_neg : Number.floor (-0.5)%float = (-1)%float.
Proof. reflexivity. Qed.

Example toString_int : Number.toString (fun _ => EmptyString) 1700003600%float = "1700003600".
Proof. reflexivity. Qed.

Example toString_zero : Number.toString (fun _ => EmptyString) (-0)%float = "0".
Proof. reflexivity. Qed.

Example toString_neg : Number.toString (fun _ => EmptyString) (-15000 / 100)%float = "-150".
Proof. reflexivity. Qed.

Example stringify_object :
  JSON.stringify (fun _ => EmptyString)
    (JsArray [JsObject [("amount", JsNumber (15000 / 100)%float);
                        ("comment", JsUndefined);
                        ("hold", JsBoolean false)]])
  = Some ("[" ++ JSON.nl ++ "  {" ++ JSON.nl
          ++ "    " ++ JSON.quote "amount" ++ ": 150," ++ JSON.nl
          ++ "    " ++ JSON.quote "hold" ++ ": false" ++ JSON.nl
          ++ "  }" ++ JSON.nl ++ "]").
Proof. reflexivity. Qed.

Example toISOString_1700000000 :
  Date.toISOString (Date.new (1700000000 * 1000)%float)
  = inr "2023-11-14T22:13:20.000Z".
Proof. reflexivity. Qed.

Example toISOString_epoch : Date.format 0 = "1970-01-01T00:00:00.000Z".
Proof. reflexivity. Qed.

Example toISOString_before_epoch : Date.format (-1) = "1969-12-31T23:59:59.999Z".
Proof. reflexivity. Qed.

Example toISOString_leap_day : Date.format 1709164800000 = "2024-02-29T00:00:00.000Z".
Proof. reflexivity. Qed.

Example toISOString_max : Date.format Date.maxTime = "+275760-09-13T00:00:00.000Z".
Proof. reflexivity. Qed.

Example toISOString_min : Date.format (- Date.maxTime) = "-271821-04-20T00:00:00.000Z".
Proof. reflexivity. Qed.

Example toISOString_year_zero : Date.format (-62167219200000) = "0000-01-01T00:00:00.000Z".
Proof. reflexivity. Qed.

Example toISOString_out_of_range :
  Date.toISOString (Date.new (10000000000000 * 1000)%float)
  = inl (JsError "RangeError" "Invalid time value").
Proof. reflexivity. Qed.

Example parse_1700000000 :
  DateString.parse "2023-11-14T22:13:20.000Z" = Some 1700000000000.
Proof. reflexivity. Qed.

Example parse_rejects_month : DateString.parse "2023-13-14T22:13:20.000Z" = None.
Proof. reflexivity. Qed.

Example parse_rejects_feb_29 : DateString.parse "2023-02-29T00:00:00.000Z" = None.
Proof. reflexivity. Qed.

Example parse_rejects_local_time : DateString.parse "2023-11-14T22:13:20.000" = None.
Proof. reflexivity. Qed.

Example parse_expanded_year :
  DateString.parse "+275760-09-13T00:00:00.000Z" = Some Date.maxTime.
Proof. reflexivity. Qed.
